(** * feed-dns: the start-up wiring of [cmd/feed-dns/main.go]

    A shallow embedding of the command's package-level flag variables, of
    [init] (flag registration), of [main], [createFrontendUpdater],
    [validateAwsConfig] and [validateCdnsConfig], followed by the properties
    of the provider selection and of the configuration checks.

    Conventions.
    - A package-level variable is a field of [Globals]; a pointer to one
      ([&r53HostedZone]) is a constructor of an enumeration of the variables
      of that type, dereferenced by [store_string] and friends.
    - [time.Duration] is a count of nanoseconds, an [int64], kept as [Z];
      [int] is kept as [Z] too (no arithmetic is done on either).
    - [log.Fatal] and [log.Fatalf] end the process: the monad [M] stops at
      the first of them and keeps what was called before.
    - Calls that leave the file (adapters, updaters, the controller, the
      Kubernetes client) are recorded, in order, in a trace of [Call]s. *)

From Stdlib Require Import ZArith String List.
From stdpp Require Import base option gmap strings list.

Open Scope Z_scope.
Open Scope string_scope.

(** ** Package-level variables (main.go, lines 20-39) *)

Record Globals := {
  debug : bool;
  kubeconfig : string;
  resyncPeriod : Z;
  healthPort : Z;
  albNames : list string;
  elbLabelValue : string;
  elbRegion : string;
  r53HostedZone : string;
  pushgatewayURL : string;
  pushgatewayIntervalSeconds : Z;
  pushgatewayLabels : list (string * string);
  awsAPIRetries : Z;
  internalHostname : string;
  externalHostname : string;
  cnameTimeToLive : Z;
  dnsProvider : string;
  cdnsHostedZone : string;
  cdnsInstanceGroupPrefix : string
}.

(** Go's zero values, which the variables hold before [init] runs. *)
Definition zero_globals : Globals := {|
  debug := false; kubeconfig := ""; resyncPeriod := 0; healthPort := 0;
  albNames := []; elbLabelValue := ""; elbRegion := ""; r53HostedZone := "";
  pushgatewayURL := ""; pushgatewayIntervalSeconds := 0;
  pushgatewayLabels := []; awsAPIRetries := 0; internalHostname := "";
  externalHostname := ""; cnameTimeToLive := 0; dnsProvider := "";
  cdnsHostedZone := ""; cdnsInstanceGroupPrefix := ""
|}.

(** Addresses of the variables, by type. *)
Inductive BoolVar := addr_debug.

Inductive StringVar :=
| addr_kubeconfig | addr_elbLabelValue | addr_elbRegion | addr_r53HostedZone
| addr_pushgatewayURL | addr_internalHostname | addr_externalHostname
| addr_dnsProvider | addr_cdnsHostedZone | addr_cdnsInstanceGroupPrefix.

Inductive IntVar :=
| addr_healthPort | addr_pushgatewayIntervalSeconds | addr_awsAPIRetries.

Inductive DurationVar := addr_resyncPeriod | addr_cnameTimeToLive.

Inductive CommaSeparatedValuesVar := addr_albNames.

Inductive KeyValuesVar := addr_pushgatewayLabels.

(** [*p = v], one assignment per type of variable. *)
Definition store_bool (p : BoolVar) (v : bool) (g : Globals) : Globals := {|
  debug := match p with addr_debug => v end;
  kubeconfig := kubeconfig g; resyncPeriod := resyncPeriod g;
  healthPort := healthPort g; albNames := albNames g;
  elbLabelValue := elbLabelValue g; elbRegion := elbRegion g;
  r53HostedZone := r53HostedZone g; pushgatewayURL := pushgatewayURL g;
  pushgatewayIntervalSeconds := pushgatewayIntervalSeconds g;
  pushgatewayLabels := pushgatewayLabels g; awsAPIRetries := awsAPIRetries g;
  internalHostname := internalHostname g;
  externalHostname := externalHostname g;
  cnameTimeToLive := cnameTimeToLive g; dnsProvider := dnsProvider g;
  cdnsHostedZone := cdnsHostedZone g;
  cdnsInstanceGroupPrefix := cdnsInstanceGroupPrefix g
|}.

Definition store_string (p : StringVar) (v : string) (g : Globals) : Globals := {|
  debug := debug g;
  kubeconfig := if p is addr_kubeconfig then v else kubeconfig g;
  resyncPeriod := resyncPeriod g;
  healthPort := healthPort g;
  albNames := albNames g;
  elbLabelValue := if p is addr_elbLabelValue then v else elbLabelValue g;
  elbRegion := if p is addr_elbRegion then v else elbRegion g;
  r53HostedZone := if p is addr_r53HostedZone then v else r53HostedZone g;
  pushgatewayURL := if p is addr_pushgatewayURL then v else pushgatewayURL g;
  pushgatewayIntervalSeconds := pushgatewayIntervalSeconds g;
  pushgatewayLabels := pushgatewayLabels g;
  awsAPIRetries := awsAPIRetries g;
  internalHostname :=
    if p is addr_internalHostname then v else internalHostname g;
  externalHostname :=
    if p is addr_externalHostname then v else externalHostname g;
  cnameTimeToLive := cnameTimeToLive g;
  dnsProvider := if p is addr_dnsProvider then v else dnsProvider g;
  cdnsHostedZone := if p is addr_cdnsHostedZone then v else cdnsHostedZone g;
  cdnsInstanceGroupPrefix :=
    if p is addr_cdnsInstanceGroupPrefix then v else cdnsInstanceGroupPrefix g
|}.

Definition store_int (p : IntVar) (v : Z) (g : Globals) : Globals := {|
  debug := debug g; kubeconfig := kubeconfig g; resyncPeriod := resyncPeriod g;
  healthPort := if p is addr_healthPort then v else healthPort g;
  albNames := albNames g;
  elbLabelValue := elbLabelValue g; elbRegion := elbRegion g;
  r53HostedZone := r53HostedZone g; pushgatewayURL := pushgatewayURL g;
  pushgatewayIntervalSeconds :=
    if p is addr_pushgatewayIntervalSeconds then v
    else pushgatewayIntervalSeconds g;
  pushgatewayLabels := pushgatewayLabels g;
  awsAPIRetries := if p is addr_awsAPIRetries then v else awsAPIRetries g;
  internalHostname := internalHostname g;
  externalHostname := externalHostname g;
  cnameTimeToLive := cnameTimeToLive g; dnsProvider := dnsProvider g;
  cdnsHostedZone := cdnsHostedZone g;
  cdnsInstanceGroupPrefix := cdnsInstanceGroupPrefix g
|}.

Definition store_duration (p : DurationVar) (v : Z) (g : Globals) : Globals := {|
  debug := debug g; kubeconfig := kubeconfig g;
  resyncPeriod := if p is addr_resyncPeriod then v else resyncPeriod g;
  healthPort := healthPort g; albNames := albNames g;
  elbLabelValue := elbLabelValue g; elbRegion := elbRegion g;
  r53HostedZone := r53HostedZone g; pushgatewayURL := pushgatewayURL g;
  pushgatewayIntervalSeconds := pushgatewayIntervalSeconds g;
  pushgatewayLabels := pushgatewayLabels g; awsAPIRetries := awsAPIRetries g;
  internalHostname := internalHostname g;
  externalHostname := externalHostname g;
  cnameTimeToLive := if p is addr_cnameTimeToLive then v else cnameTimeToLive g;
  dnsProvider := dnsProvider g; cdnsHostedZone := cdnsHostedZone g;
  cdnsInstanceGroupPrefix := cdnsInstanceGroupPrefix g
|}.

Definition store_csv (p : CommaSeparatedValuesVar) (v : list string)
    (g : Globals) : Globals := {|
  debug := debug g; kubeconfig := kubeconfig g; resyncPeriod := resyncPeriod g;
  healthPort := healthPort g;
  albNames := match p with addr_albNames => v end;
  elbLabelValue := elbLabelValue g; elbRegion := elbRegion g;
  r53HostedZone := r53HostedZone g; pushgatewayURL := pushgatewayURL g;
  pushgatewayIntervalSeconds := pushgatewayIntervalSeconds g;
  pushgatewayLabels := pushgatewayLabels g; awsAPIRetries := awsAPIRetries g;
  internalHostname := internalHostname g;
  externalHostname := externalHostname g;
  cnameTimeToLive := cnameTimeToLive g; dnsProvider := dnsProvider g;
  cdnsHostedZone := cdnsHostedZone g;
  cdnsInstanceGroupPrefix := cdnsInstanceGroupPrefix g
|}.

Definition store_kv (p : KeyValuesVar) (v : list (string * string))
    (g : Globals) : Globals := {|
  debug := debug g; kubeconfig := kubeconfig g; resyncPeriod := resyncPeriod g;
  healthPort := healthPort g; albNames := albNames g;
  elbLabelValue := elbLabelValue g; elbRegion := elbRegion g;
  r53HostedZone := r53HostedZone g; pushgatewayURL := pushgatewayURL g;
  pushgatewayIntervalSeconds := pushgatewayIntervalSeconds g;
  pushgatewayLabels := match p with addr_pushgatewayLabels => v end;
  awsAPIRetries := awsAPIRetries g;
  internalHostname := internalHostname g;
  externalHostname := externalHostname g;
  cnameTimeToLive := cnameTimeToLive g; dnsProvider := dnsProvider g;
  cdnsHostedZone := cdnsHostedZone g;
  cdnsInstanceGroupPrefix := cdnsInstanceGroupPrefix g
|}.

Definition load_csv (p : CommaSeparatedValuesVar) (g : Globals) : list string :=
  match p with addr_albNames => albNames g end.

Definition load_kv (p : KeyValuesVar) (g : Globals) : list (string * string) :=
  match p with addr_pushgatewayLabels => pushgatewayLabels g end.

(** ** Code outside the file

    What the Go standard library and the other packages of the repository
    decide: how a flag's text is parsed, and whether a constructor or the
    controller reports an error. Every definition and theorem below holds
    for any choice of them. *)

Definition extError := string.

Record AWSAdapterConfig := {
  Region : string;
  HostedZoneID : string;
  ELBLabelValue : string;
  ALBNames : list string
}.

Record cdnsConfig := {
  InstanceGroupPrefix : string;
  HostedZone : string
}.

Record World := {
  (** [strconv.ParseBool], [strconv.ParseInt], [time.ParseDuration] *)
  ParseBool : string → option bool;
  ParseInt : string → option Z;
  ParseDuration : string → option Z;
  (** the [Set] methods of [cmd.CommaSeparatedValues] and [cmd.KeyValues]:
      the variable's new contents from its old ones and the flag's text *)
  CommaSeparatedValues_Set : list string → string → option (list string);
  KeyValues_Set :
    list (string * string) → string → option (list (string * string));
  (** the [err] result of the fallible calls; [None] is [nil] *)
  k8s_New_err : string → Z → option extError;
  NewAWSAdapter_err : AWSAdapterConfig → option extError;
  cdns_NewAdapter_err : cdnsConfig → option extError;
  cdns_NewUpdater_err : cdnsConfig → option extError;
  controller_Start_err : option extError
}.

(** ** The flag set (package [flag]) *)

(** A [flag.Value]: where a flag's argument is written, and as what. *)
Inductive Value :=
| boolValue (p : BoolVar)
| stringValue (p : StringVar)
| intValue (p : IntVar)
| durationValue (p : DurationVar)
| csvValue (p : CommaSeparatedValuesVar)
| keyValuesValue (p : KeyValuesVar).

(** [flag.CommandLine]: the registered flags, by name ([formal]), next to
    the variables they write. Usage texts only feed [-help] and are left
    out. *)
Record FlagSet := {
  formal : gmap string Value;
  vars : Globals
}.

(** [flag.Var]: registering a name twice panics. *)
Definition Var (value : Value) (name : string) (f : FlagSet) : option FlagSet :=
  match formal f !! name with
  | Some _ => None
  | None => Some {| formal := <[name := value]> (formal f); vars := vars f |}
  end.

(** [flag.BoolVar(p, name, value, usage)] and its siblings: [*p = value],
    then [Var]. *)
Definition BoolVar_ (p : BoolVar) (name : string) (value : bool)
    (f : FlagSet) : option FlagSet :=
  Var (boolValue p) name
    {| formal := formal f; vars := store_bool p value (vars f) |}.

Definition StringVar_ (p : StringVar) (name value : string)
    (f : FlagSet) : option FlagSet :=
  Var (stringValue p) name
    {| formal := formal f; vars := store_string p value (vars f) |}.

Definition IntVar_ (p : IntVar) (name : string) (value : Z)
    (f : FlagSet) : option FlagSet :=
  Var (intValue p) name
    {| formal := formal f; vars := store_int p value (vars f) |}.

Definition DurationVar_ (p : DurationVar) (name : string) (value : Z)
    (f : FlagSet) : option FlagSet :=
  Var (durationValue p) name
    {| formal := formal f; vars := store_duration p value (vars f) |}.

(** [time.Minute], in nanoseconds. *)
Definition Minute : Z := 60 * 1000000000.

(** ** [init] (lines 41-93) *)

Definition defaultResyncPeriod : Z := Minute * 15.
Definition defaultHealthPort : Z := 12082.
Definition defaultElbRegion : string := "eu-west-1".
Definition defaultElbLabelValue : string := "".
Definition defaultHostedZone : string := "".
Definition defaultPushgatewayIntervalSeconds : Z := 60.
Definition defaultAwsAPIRetries : Z := 5.
Definition defaultCnameTTL : Z := 5 * Minute.
Definition defaultCdnsInstanceGroupPrefix : string := "".
Definition defaultDnsProvider : string := "".

Definition init (f : FlagSet) : option FlagSet :=
  f ← BoolVar_ addr_debug "debug" false f;
  f ← StringVar_ addr_kubeconfig "kubeconfig" "" f;
  f ← DurationVar_ addr_resyncPeriod "resync-period" defaultResyncPeriod f;
  f ← IntVar_ addr_healthPort "health-port" defaultHealthPort f;
  f ← Var (csvValue addr_albNames) "alb-names" f;
  f ← StringVar_ addr_elbRegion "elb-region" defaultElbRegion f;
  f ← StringVar_ addr_elbLabelValue "elb-label-value" defaultElbLabelValue f;
  f ← StringVar_ addr_r53HostedZone "r53-hosted-zone" defaultHostedZone f;
  f ← StringVar_ addr_pushgatewayURL "pushgateway" "" f;
  f ← IntVar_ addr_pushgatewayIntervalSeconds "pushgateway-interval"
        defaultPushgatewayIntervalSeconds f;
  f ← Var (keyValuesValue addr_pushgatewayLabels) "pushgateway-label" f;
  f ← IntVar_ addr_awsAPIRetries "aws-api-retries" defaultAwsAPIRetries f;
  f ← StringVar_ addr_internalHostname "internal-hostname" "" f;
  f ← StringVar_ addr_externalHostname "external-hostname" "" f;
  f ← DurationVar_ addr_cnameTimeToLive "cname-ttl" defaultCnameTTL f;
  f ← StringVar_ addr_cdnsHostedZone "dns-provider" defaultDnsProvider f;
  f ← StringVar_ addr_cdnsHostedZone "cdns-hosted-zone" defaultHostedZone f;
  StringVar_ addr_cdnsInstanceGroupPrefix "cdns-instance-group-prefix"
    defaultCdnsInstanceGroupPrefix f.

(** The flag set before [init]: no flag, every variable at its zero value. *)
Definition CommandLine0 : FlagSet := {| formal := ∅; vars := zero_globals |}.


(** ** Errors, log lines and the ways the process ends *)

(** An [error] value: one handed over by another package, or one built
    here by [fmt.Errorf]. Formatting is kept symbolic: the format string
    of the source next to its arguments. *)
Inductive error :=
| extErr (msg : extError)
| Errorf (format : string) (a : list fmtArg)
with fmtArg :=
| argString (s : string)
| argError (err : error).

(** What [log.Fatal] and [log.Fatalf] were given. *)
Inductive LogLine :=
| Fatal_line (args : list fmtArg)
| Fatalf_line (format : string) (args : list fmtArg).

Inductive Exit :=
| LogFatal (line : LogLine)          (* logged, then [os.Exit(1)] *)
| FlagNotDefined (name : string)     (* [flag.Parse], [flag.ExitOnError] *)
| FlagInvalidValue (name value : string).

Inductive result (A : Type) :=
| Ok (a : A)
| Err (err : error).
Arguments Ok {A} a.
Arguments Err {A} err.

(** ** Values built outside the file

    An adapter, an updater, a client or a controller is represented by the
    constructor call that returned it. *)

Inductive FrontendAdapter :=
| StaticHostnameAdapter (addressesWithScheme : gmap string string) (ttl : Z)
| AWSAdapter (config : AWSAdapterConfig)
| cdns_Adapter (config : cdnsConfig).

Inductive Updater :=
| dns_Updater (hostedZone : string) (a : FrontendAdapter) (retries : Z)
| cdns_Updater (config : cdnsConfig).

Inductive Client := k8sClient (kubeconfig : string) (resyncPeriod : Z).

Record controllerConfig := {
  KubernetesClient : Client;
  Updaters : list Updater
}.

Inductive Controller := controller_ (config : controllerConfig).

(** The calls that leave the file, as the trace records them. *)
Inductive Call :=
| call_ConfigureLogging (debug : bool)
| call_ConfigureMetrics (name : string) (labels : list (string * string))
    (url : string) (intervalSeconds : Z)
| call_k8s_New (kubeconfig : string) (resyncPeriod : Z)
| call_NewStaticHostnameAdapter (addressesWithScheme : gmap string string)
    (ttl : Z)
| call_NewAWSAdapter (config : AWSAdapterConfig)
| call_dns_New (hostedZone : string) (a : FrontendAdapter) (retries : Z)
| call_cdns_NewAdapter (config : cdnsConfig)
| call_cdns_NewUpdater (config : cdnsConfig)
| call_controller_New (config : controllerConfig)
| call_AddHealthMetrics (c : Controller)
| call_AddHealthPort (c : Controller) (healthPort : Z)
| call_AddSignalHandler (c : Controller)
| call_controller_Start (c : Controller).

(** ** The monad of the process: a trace, and how far the code got *)

Inductive Res (A : Type) :=
| Ret (a : A)        (* the code returned [a] *)
| Stop (e : Exit)    (* the process ended *)
| Blocked.           (* [select {}]: the main goroutine waits forever *)
Arguments Ret {A} a.
Arguments Stop {A} e.
Arguments Blocked {A}.

Definition M (A : Type) : Type := list Call * Res A.

Definition trace {A} (m : M A) : list Call := fst m.
Definition outcome {A} (m : M A) : Res A := snd m.

#[export] Instance M_ret : MRet M := λ A a, ([], Ret a).

#[export] Instance M_bind : MBind M := λ A B f m,
  match m with
  | (t, Ret a) => let '(t', r) := f a in ((t ++ t')%list, r)
  | (t, Stop e) => (t, Stop e)
  | (t, Blocked) => (t, Blocked)
  end.

Definition call {A} (c : Call) (a : A) : M A := ([c], Ret a).
Definition exit {A} (e : Exit) : M A := ([], Stop e).
Definition log_Fatal {A} (args : list fmtArg) : M A :=
  exit (LogFatal (Fatal_line args)).
Definition log_Fatalf {A} (format : string) (args : list fmtArg) : M A :=
  exit (LogFatal (Fatalf_line format args)).
Definition select_forever {A} : M A := ([], Blocked).

(** [if c { body }] for a body that returns nothing. *)
Definition when_ (P : Prop) `{Decision P} (body : M unit) : M unit :=
  if decide P then body else mret tt.

Section Program.

Variable W : World.

(** ** [flag.Parse]

    The command line is taken after its split into flags: the list of
    (name, argument) pairs in the order given ([-debug] alone is
    [("debug", "true")]). Each pair calls [Set] on the value registered
    under the name; an unknown name (also [-help]) or a rejected argument
    ends the process. *)

Definition Value_Set (v : Value) (s : string) (g : Globals) : option Globals :=
  match v with
  | boolValue p => b ← ParseBool W s; Some (store_bool p b g)
  | stringValue p => Some (store_string p s g)
  | intValue p => n ← ParseInt W s; Some (store_int p n g)
  | durationValue p => d ← ParseDuration W s; Some (store_duration p d g)
  | csvValue p =>
      l ← CommaSeparatedValues_Set W (load_csv p g) s; Some (store_csv p l g)
  | keyValuesValue p =>
      l ← KeyValues_Set W (load_kv p g) s; Some (store_kv p l g)
  end.

Fixpoint Parse (f : FlagSet) (arguments : list (string * string)) : M Globals :=
  match arguments with
  | [] => mret (vars f)
  | (name, value) :: rest =>
      match formal f !! name with
      | None => exit (FlagNotDefined name)
      | Some v =>
          match Value_Set v value (vars f) with
          | None => exit (FlagInvalidValue name value)
          | Some g => Parse {| formal := formal f; vars := g |} rest
          end
      end
  end.

(** ** The calls into other packages *)

Definition cmd_ConfigureLogging (debug : bool) : M unit :=
  call (call_ConfigureLogging debug) tt.

Definition cmd_ConfigureMetrics (name : string)
    (labels : list (string * string)) (url : string) (interval : Z) : M unit :=
  call (call_ConfigureMetrics name labels url interval) tt.

Definition k8s_New (kubeconfig : string) (resyncPeriod : Z) : M (result Client) :=
  call (call_k8s_New kubeconfig resyncPeriod)
    match k8s_New_err W kubeconfig resyncPeriod with
    | None => Ok (k8sClient kubeconfig resyncPeriod)
    | Some e => Err (extErr e)
    end.

Definition adapter_NewStaticHostnameAdapter
    (addressesWithScheme : gmap string string) (ttl : Z) : M FrontendAdapter :=
  call (call_NewStaticHostnameAdapter addressesWithScheme ttl)
    (StaticHostnameAdapter addressesWithScheme ttl).

Definition adapter_NewAWSAdapter (config : AWSAdapterConfig)
    : M (result FrontendAdapter) :=
  call (call_NewAWSAdapter config)
    match NewAWSAdapter_err W config with
    | None => Ok (AWSAdapter config)
    | Some e => Err (extErr e)
    end.

Definition dns_New (hostedZone : string) (a : FrontendAdapter) (retries : Z)
    : M Updater :=
  call (call_dns_New hostedZone a retries) (dns_Updater hostedZone a retries).

Definition cdns_NewAdapter (config : cdnsConfig) : M (result FrontendAdapter) :=
  call (call_cdns_NewAdapter config)
    match cdns_NewAdapter_err W config with
    | None => Ok (cdns_Adapter config)
    | Some e => Err (extErr e)
    end.

Definition cdns_NewUpdater (config : cdnsConfig) : M (result Updater) :=
  call (call_cdns_NewUpdater config)
    match cdns_NewUpdater_err W config with
    | None => Ok (cdns_Updater config)
    | Some e => Err (extErr e)
    end.

Definition controller_New (config : controllerConfig) : M Controller :=
  call (call_controller_New config) (controller_ config).

Definition cmd_AddHealthMetrics (c : Controller) : M unit :=
  call (call_AddHealthMetrics c) tt.

Definition cmd_AddHealthPort (c : Controller) (healthPort : Z) : M unit :=
  call (call_AddHealthPort c healthPort) tt.

Definition cmd_AddSignalHandler (c : Controller) : M unit :=
  call (call_AddSignalHandler c) tt.

Definition controller_Start (c : Controller) : M (option error) :=
  call (call_controller_Start c) (extErr <$> controller_Start_err W).

(** ** [validateAwsConfig] (lines 175-186) *)

Definition validateAwsConfig (g : Globals) : M unit :=
  when_ (r53HostedZone g = "")
    (log_Fatal [argString "Must supply r53-hosted-zone"]);;
  when_ (elbLabelValue g = "" ∧ length (albNames g) = 0%nat
         ∧ internalHostname g = "" ∧ externalHostname g = "")
    (log_Fatal [argString "Must specify at least one of alb-names, elb-label-value, internal-hostname or external-hostname"]);;
  when_ ((internalHostname g ≠ "" ∨ externalHostname g ≠ "")
         ∧ (elbLabelValue g ≠ "" ∨ (0 < length (albNames g))%nat))
    (log_Fatal [argString "Can't supply both ELB/ALB and non-ALB/ELB hostname. Choose one or the other."]).

(** ** [validateCdnsConfig] (lines 188-195) *)

Definition validateCdnsConfig (g : Globals) : M unit :=
  when_ (cdnsInstanceGroupPrefix g = "")
    (log_Fatalf "Must supply the cdns-instance-group-prefix value." []);;
  when_ (cdnsHostedZone g = "")
    (log_Fatalf "Must supply the cdns-hosted-zone name." []).

(** ** [createFrontendUpdater] (lines 127-173) *)

(** Lines 134-141: the map given to the static adapter. *)
Definition addressesWithScheme_of (g : Globals) : gmap string string :=
  let addressesWithScheme : gmap string string := ∅ in
  let addressesWithScheme :=
    if decide (internalHostname g ≠ "")
    then <["internal" := internalHostname g]> addressesWithScheme
    else addressesWithScheme in
  let addressesWithScheme :=
    if decide (externalHostname g ≠ "")
    then <["internet-facing" := externalHostname g]> addressesWithScheme
    else addressesWithScheme in
  addressesWithScheme.

Definition createFrontendUpdater (g : Globals) : M (result Updater) :=
  if decide (dnsProvider g = "aws") then
    validateAwsConfig g;;
    r ← (if decide (internalHostname g ≠ "" ∨ externalHostname g ≠ "") then
           dnsAdapter ← adapter_NewStaticHostnameAdapter
                          (addressesWithScheme_of g) (cnameTimeToLive g);
           mret (Ok dnsAdapter)
         else
           let config := {| Region := elbRegion g;
                            HostedZoneID := r53HostedZone g;
                            ELBLabelValue := elbLabelValue g;
                            ALBNames := albNames g |} in
           adapter_NewAWSAdapter config);
    match r with
    | Err err =>
        mret (Err (Errorf "unable to create aws adapater: %v" [argError err]))
    | Ok dnsAdapter =>
        u ← dns_New (r53HostedZone g) dnsAdapter (awsAPIRetries g);
        mret (Ok u)
    end
  else if decide (dnsProvider g = "gcp") then
    validateCdnsConfig g;;
    let config := {| InstanceGroupPrefix := cdnsInstanceGroupPrefix g;
                     HostedZone := cdnsHostedZone g |} in
    r ← cdns_NewAdapter config;
    match r with
    | Err err =>
        mret (Err (Errorf "unable to create gcp adapater: %v" [argError err]))
    | Ok dnsAdapter => cdns_NewUpdater config
    end
  else
    mret (Err (Errorf
      "invalid dns-provider %q. Must specify a valid value: aws, gcp"
      [argString (dnsProvider g)])).

(** ** [main] (lines 95-125) *)

(** Lines 98-124: what [main] does once the flags are parsed. *)
Definition main_after_Parse (g : Globals) : M unit :=
  cmd_ConfigureLogging (debug g);;
  cmd_ConfigureMetrics "feed-dns" (pushgatewayLabels g) (pushgatewayURL g)
    (pushgatewayIntervalSeconds g);;
  r ← k8s_New (kubeconfig g) (resyncPeriod g);
  match r with
  | Err err => log_Fatalf "Unable to create k8s client: %v" [argError err]
  | Ok client =>
      r ← createFrontendUpdater g;
      match r with
      | Err err => log_Fatalf "Unable to create dns updater: %v" [argError err]
      | Ok dnsUpdater =>
          controller ← controller_New
            {| KubernetesClient := client; Updaters := [dnsUpdater] |};
          cmd_AddHealthMetrics controller;;
          cmd_AddHealthPort controller (healthPort g);;
          cmd_AddSignalHandler controller;;
          r ← controller_Start controller;
          match r with
          | Some err =>
              log_Fatal [argString "Error while starting controller: ";
                         argError err]
          | None => select_forever
          end
      end
  end.

Definition main (f : FlagSet) (arguments : list (string * string)) : M unit :=
  g ← Parse f arguments;
  main_after_Parse g.

(** The program: [init], then [main]. [None] is a panic in [init]. *)
Definition program (arguments : list (string * string)) : option (M unit) :=
  f ← init CommandLine0; Some (main f arguments).

End Program.

(** ** Sample worlds and configurations, used to run the definitions *)

Fixpoint decimal (s : string) (acc : Z) : option Z :=
  match s with
  | EmptyString => Some acc
  | String c rest =>
      let d := Z.of_nat (Ascii.nat_of_ascii c) - 48 in
      if decide (0 ≤ d ≤ 9)%Z then decimal rest (10 * acc + d) else None
  end.

(** Every outside call succeeds; numbers are plain decimals, durations a
    decimal count of seconds, lists are one element long. *)
Definition calm_world : World := {|
  ParseBool := λ s,
    if decide (s = "true") then Some true
    else if decide (s = "false") then Some false else None;
  ParseInt := λ s, if decide (s = "") then None else decimal s 0;
  ParseDuration := λ s,
    if decide (s = "") then None else (λ n, n * 1000000000) <$> decimal s 0;
  CommaSeparatedValues_Set := λ _ s, Some [s];
  KeyValues_Set := λ old s, Some (old ++ [(s, "")])%list;
  k8s_New_err := λ _ _, None;
  NewAWSAdapter_err := λ _, None;
  cdns_NewAdapter_err := λ _, None;
  cdns_NewUpdater_err := λ _, None;
  controller_Start_err := None
|}.

Definition CommandLine : FlagSet := default CommandLine0 (init CommandLine0).

(** ** The flag registry and the command line *)

(** The registrations of [init], in source order. *)
Definition registered : list (string * Value) := [
  ("debug", boolValue addr_debug);
  ("kubeconfig", stringValue addr_kubeconfig);
  ("resync-period", durationValue addr_resyncPeriod);
  ("health-port", intValue addr_healthPort);
  ("alb-names", csvValue addr_albNames);
  ("elb-region", stringValue addr_elbRegion);
  ("elb-label-value", stringValue addr_elbLabelValue);
  ("r53-hosted-zone", stringValue addr_r53HostedZone);
  ("pushgateway", stringValue addr_pushgatewayURL);
  ("pushgateway-interval", intValue addr_pushgatewayIntervalSeconds);
  ("pushgateway-label", keyValuesValue addr_pushgatewayLabels);
  ("aws-api-retries", intValue addr_awsAPIRetries);
  ("internal-hostname", stringValue addr_internalHostname);
  ("external-hostname", stringValue addr_externalHostname);
  ("cname-ttl", durationValue addr_cnameTimeToLive);
  ("dns-provider", stringValue addr_cdnsHostedZone);
  ("cdns-hosted-zone", stringValue addr_cdnsHostedZone);
  ("cdns-instance-group-prefix", stringValue addr_cdnsInstanceGroupPrefix)
].

(** The last argument given for a flag, if any. *)
Fixpoint last_argument (name : string) (arguments : list (string * string))
    : option string :=
  match arguments with
  | [] => None
  | (n, v) :: rest =>
      match last_argument name rest with
      | Some v' => Some v'
      | None => if decide (n = name) then Some v else None
      end
  end.

(** ** The lines [log.Fatal] can be given by the two validators *)

Definition line_no_hosted_zone : LogLine :=
  Fatal_line [argString "Must supply r53-hosted-zone"].
Definition line_no_source : LogLine :=
  Fatal_line [argString "Must specify at least one of alb-names, elb-label-value, internal-hostname or external-hostname"].
Definition line_both_sources : LogLine :=
  Fatal_line [argString "Can't supply both ELB/ALB and non-ALB/ELB hostname. Choose one or the other."].
Definition line_no_prefix : LogLine :=
  Fatalf_line "Must supply the cdns-instance-group-prefix value." [].
Definition line_no_cdns_zone : LogLine :=
  Fatalf_line "Must supply the cdns-hosted-zone name." [].

(** ** Adapters built during a run *)

(** The adapter a call brought into being, if it did. *)
Definition constructed (W : World) (c : Call) : option FrontendAdapter :=
  match c with
  | call_NewStaticHostnameAdapter m ttl => Some (StaticHostnameAdapter m ttl)
  | call_NewAWSAdapter config =>
      if NewAWSAdapter_err W config is None then Some (AWSAdapter config)
      else None
  | call_cdns_NewAdapter config =>
      if cdns_NewAdapter_err W config is None then Some (cdns_Adapter config)
      else None
  | _ => None
  end.

Definition adapters_constructed (W : World) (t : list Call)
    : list FrontendAdapter :=
  omap (constructed W) t.

(** The adapter an updater was given when it was built. [cdns.NewUpdater]
    takes the configuration only. *)
Definition adapter_of (u : Updater) : option FrontendAdapter :=
  match u with
  | dns_Updater _ a _ => Some a
  | cdns_Updater _ => None
  end.

Inductive AdapterKind := Static | AWS | CloudDNS.

Definition kind (a : FrontendAdapter) : AdapterKind :=
  match a with
  | StaticHostnameAdapter _ _ => Static
  | AWSAdapter _ => AWS
  | cdns_Adapter _ => CloudDNS
  end.

Definition static_configured (g : Globals) : Prop :=
  internalHostname g ≠ "" ∨ externalHostname g ≠ "".

(** The adapter by the order of the specification: static hostname first,
    then the provider. *)
Definition kind_static_first (g : Globals) : AdapterKind :=
  if decide (static_configured g) then Static
  else if decide (dnsProvider g = "aws") then AWS else CloudDNS.

(** The adapter by the order of the code: provider first, and the static
    hostnames inside the [aws] branch only. *)
Definition kind_provider_first (g : Globals) : AdapterKind :=
  if decide (dnsProvider g = "aws")
  then if decide (static_configured g) then Static else AWS
  else CloudDNS.

Definition one_adapter_static_first (W : World) (g : Globals) : Prop :=
  ∀ u, outcome (createFrontendUpdater W g) = Ret (Ok u) →
    ∃ a, adapters_constructed W (trace (createFrontendUpdater W g)) = [a]
         ∧ adapter_of u = Some a
         ∧ kind a = kind_static_first g.

(** ** Sample configurations and command lines *)

Definition aws_static_internal : Globals :=
  store_string addr_dnsProvider "aws"
    (store_string addr_r53HostedZone "Z1EXAMPLE"
       (store_string addr_internalHostname "lb-internal.example.com"
          (vars CommandLine))).

Definition static_internal_adapter : FrontendAdapter :=
  StaticHostnameAdapter {["internal" := "lb-internal.example.com"]} (5 * Minute).

Definition aws_static_and_elb : Globals :=
  store_string addr_elbLabelValue "prod" aws_static_internal.

Definition aws_elb : Globals :=
  store_string addr_dnsProvider "aws"
    (store_string addr_r53HostedZone "Z1EXAMPLE"
       (store_string addr_elbLabelValue "prod" (vars CommandLine))).

Definition aws_no_zone : Globals :=
  store_string addr_dnsProvider "aws"
    (store_string addr_elbLabelValue "prod" (vars CommandLine)).

Definition gcp_static_internal : Globals :=
  store_string addr_dnsProvider "gcp"
    (store_string addr_cdnsHostedZone "example-zone"
       (store_string addr_cdnsInstanceGroupPrefix "ingress-"
          (store_string addr_internalHostname "lb-internal.example.com"
             (vars CommandLine)))).

Definition arguments_aws_elb : list (string * string) :=
  [("dns-provider", "aws"); ("r53-hosted-zone", "Z1EXAMPLE");
   ("elb-label-value", "prod")].

(** What [flag.Parse] leaves in the variables on [arguments_aws_elb]: the
    argument of [dns-provider] is in [cdnsHostedZone]. *)
Definition parsed_aws_elb : Globals :=
  store_string addr_cdnsHostedZone "aws"
    (store_string addr_r53HostedZone "Z1EXAMPLE"
       (store_string addr_elbLabelValue "prod" (vars CommandLine))).

(** ** The runs of [createFrontendUpdater] *)

(** The shapes a run can take: which calls, and how it ends. *)
Inductive updater_run (W : World) (g : Globals) : M (result Updater) → Prop :=
| run_fatal line :
    updater_run W g ([], Stop (LogFatal line))
| run_invalid :
    dnsProvider g ≠ "aws" → dnsProvider g ≠ "gcp" →
    updater_run W g ([], Ret (Err (Errorf
      "invalid dns-provider %q. Must specify a valid value: aws, gcp"
      [argString (dnsProvider g)])))
| run_static :
    dnsProvider g = "aws" → static_configured g →
    let a := StaticHostnameAdapter (addressesWithScheme_of g) (cnameTimeToLive g) in
    updater_run W g
      ([call_NewStaticHostnameAdapter (addressesWithScheme_of g) (cnameTimeToLive g);
        call_dns_New (r53HostedZone g) a (awsAPIRetries g)],
       Ret (Ok (dns_Updater (r53HostedZone g) a (awsAPIRetries g))))
| run_aws config :
    dnsProvider g = "aws" → ¬ static_configured g →
    NewAWSAdapter_err W config = None →
    updater_run W g
      ([call_NewAWSAdapter config;
        call_dns_New (r53HostedZone g) (AWSAdapter config) (awsAPIRetries g)],
       Ret (Ok (dns_Updater (r53HostedZone g) (AWSAdapter config)
                  (awsAPIRetries g))))
| run_aws_err config e :
    dnsProvider g = "aws" → ¬ static_configured g →
    NewAWSAdapter_err W config = Some e →
    updater_run W g
      ([call_NewAWSAdapter config],
       Ret (Err (Errorf "unable to create aws adapater: %v"
                   [argError (extErr e)])))
| run_gcp config :
    dnsProvider g = "gcp" →
    cdns_NewAdapter_err W config = None →
    cdns_NewUpdater_err W config = None →
    updater_run W g
      ([call_cdns_NewAdapter config; call_cdns_NewUpdater config],
       Ret (Ok (cdns_Updater config)))
| run_gcp_err config e :
    dnsProvider g = "gcp" →
    cdns_NewAdapter_err W config = Some e →
    updater_run W g
      ([call_cdns_NewAdapter config],
       Ret (Err (Errorf "unable to create gcp adapater: %v"
                   [argError (extErr e)])))
| run_gcp_updater_err config e :
    dnsProvider g = "gcp" →
    cdns_NewAdapter_err W config = None →
    cdns_NewUpdater_err W config = Some e →
    updater_run W g
      ([call_cdns_NewAdapter config; call_cdns_NewUpdater config],
       Ret (Err (extErr e))).

(** ** Reading the command line back

    What the variables must hold after [flag.Parse], said in terms of the
    arguments given. *)

#[export] Instance BoolVar_eq_dec : EqDecision BoolVar.
Proof. solve_decision. Defined.
#[export] Instance StringVar_eq_dec : EqDecision StringVar.
Proof. solve_decision. Defined.
#[export] Instance IntVar_eq_dec : EqDecision IntVar.
Proof. solve_decision. Defined.
#[export] Instance DurationVar_eq_dec : EqDecision DurationVar.
Proof. solve_decision. Defined.
#[export] Instance CommaSeparatedValuesVar_eq_dec :
  EqDecision CommaSeparatedValuesVar.
Proof. solve_decision. Defined.
#[export] Instance KeyValuesVar_eq_dec : EqDecision KeyValuesVar.
Proof. solve_decision. Defined.
#[export] Instance Value_eq_dec : EqDecision Value.
Proof. solve_decision. Defined.

(** [*p], for the variables a flag can write. *)
Definition load_string (p : StringVar) (g : Globals) : string :=
  match p with
  | addr_kubeconfig => kubeconfig g
  | addr_elbLabelValue => elbLabelValue g
  | addr_elbRegion => elbRegion g
  | addr_r53HostedZone => r53HostedZone g
  | addr_pushgatewayURL => pushgatewayURL g
  | addr_internalHostname => internalHostname g
  | addr_externalHostname => externalHostname g
  | addr_dnsProvider => dnsProvider g
  | addr_cdnsHostedZone => cdnsHostedZone g
  | addr_cdnsInstanceGroupPrefix => cdnsInstanceGroupPrefix g
  end.

Definition load_int (p : IntVar) (g : Globals) : Z :=
  match p with
  | addr_healthPort => healthPort g
  | addr_pushgatewayIntervalSeconds => pushgatewayIntervalSeconds g
  | addr_awsAPIRetries => awsAPIRetries g
  end.

Definition load_duration (p : DurationVar) (g : Globals) : Z :=
  match p with
  | addr_resyncPeriod => resyncPeriod g
  | addr_cnameTimeToLive => cnameTimeToLive g
  end.

(** The names [init] registers with a given value, in source order. *)
Definition flags_bound_to (v : Value) : list string :=
  (filter (λ nv : string * Value, nv.2 = v) registered).*1.

(** Every name [init] registers. *)
Definition flag_names : list string := registered.*1.

(** The last argument given for any of several flags. *)
Fixpoint last_argument_among (names : list string)
    (arguments : list (string * string)) : option string :=
  match arguments with
  | [] => None
  | (n, v) :: rest =>
      match last_argument_among names rest with
      | Some v' => Some v'
      | None => if decide (n ∈ names) then Some v else None
      end
  end.

(** The arguments given for one flag, in the order given. *)
Definition arguments_of (name : string) (arguments : list (string * string))
    : list string :=
  (filter (λ nv : string * string, nv.1 = name) arguments).*2.

(** A [Set] method called once per argument, left to right, each time on
    what the previous call left. *)
Fixpoint Set_each {A} (set : A → string → option A) (acc : A)
    (values : list string) : option A :=
  match values with
  | [] => Some acc
  | s :: rest => acc' ← set acc s; Set_each set acc' rest
  end.

Definition discovery_configured (g : Globals) : Prop :=
  elbLabelValue g ≠ "" ∨ albNames g ≠ [].

(** A command line that gives the Cloud DNS zone, then the provider. *)
Definition arguments_zone_then_provider : list (string * string) :=
  [("cdns-hosted-zone", "example-zone"); ("dns-provider", "gcp");
   ("health-port", "8080"); ("alb-names", "alb-a"); ("alb-names", "alb-b")].

Definition parsed_zone_then_provider : Globals :=
  store_csv addr_albNames ["alb-b"]
    (store_int addr_healthPort 8080
       (store_string addr_cdnsHostedZone "gcp" (vars CommandLine))).

(** A world without a reachable cluster: [k8s.New] fails, the rest is as
    in [calm_world]. *)
Definition no_cluster_world : World := {|
  ParseBool := ParseBool calm_world;
  ParseInt := ParseInt calm_world;
  ParseDuration := ParseDuration calm_world;
  CommaSeparatedValues_Set := CommaSeparatedValues_Set calm_world;
  KeyValues_Set := KeyValues_Set calm_world;
  k8s_New_err := λ _ _, Some "no cluster";
  NewAWSAdapter_err := λ _, None;
  cdns_NewAdapter_err := λ _, None;
  cdns_NewUpdater_err := λ _, None;
  controller_Start_err := None
|}.

(** A world in which the AWS adapter cannot be built. *)
Definition no_aws_world : World := {|
  ParseBool := ParseBool calm_world;
  ParseInt := ParseInt calm_world;
  ParseDuration := ParseDuration calm_world;
  CommaSeparatedValues_Set := CommaSeparatedValues_Set calm_world;
  KeyValues_Set := KeyValues_Set calm_world;
  k8s_New_err := λ _ _, None;
  NewAWSAdapter_err := λ _, Some "no credentials";
  cdns_NewAdapter_err := λ _, None;
  cdns_NewUpdater_err := λ _, None;
  controller_Start_err := None
|}.

(** The three calls [main] makes before it creates the updater. *)
Definition calls_before_updater (g : Globals) : list Call :=
  [call_ConfigureLogging (debug g);
   call_ConfigureMetrics "feed-dns" (pushgatewayLabels g) (pushgatewayURL g)
     (pushgatewayIntervalSeconds g);
   call_k8s_New (kubeconfig g) (resyncPeriod g)].

(** The five calls [main] makes once it has the updater. *)
Definition calls_after_updater (g : Globals) (u : Updater) : list Call :=
  let c := controller_
             {| KubernetesClient := k8sClient (kubeconfig g) (resyncPeriod g);
                Updaters := [u] |} in
  [call_controller_New
     {| KubernetesClient := k8sClient (kubeconfig g) (resyncPeriod g);
        Updaters := [u] |};
   call_AddHealthMetrics c;
   call_AddHealthPort c (healthPort g);
   call_AddSignalHandler c;
   call_controller_Start c].

Definition arguments_unknown_flag : list (string * string) :=
  [("r53-hosted-zone", "Z1EXAMPLE"); ("region", "eu-west-1")].

Definition arguments_bad_port : list (string * string) :=
  [("health-port", "http"); ("r53-hosted-zone", "Z1EXAMPLE")].

Definition aws_elb_config : AWSAdapterConfig :=
  {| Region := "eu-west-1"; HostedZoneID := "Z1EXAMPLE";
     ELBLabelValue := "prod"; ALBNames := [] |}.

Definition gcp_config : cdnsConfig :=
  {| InstanceGroupPrefix := "ingress-"; HostedZone := "example-zone" |}.

Definition err_no_credentials : error :=
  Errorf "unable to create aws adapater: %v"
    [argError (extErr "no credentials")].

(** The flag set as [init] leaves it, with [dnsProvider] holding
    [provider]: no flag writes that variable, so this is the only way the
    [aws] and [gcp] cases of [createFrontendUpdater] see a command line. *)
Definition CommandLine_with_provider (provider : string) : FlagSet :=
  {| formal := formal CommandLine;
     vars := store_string addr_dnsProvider provider (vars CommandLine) |}.

(** A static hostname with a TTL of 30 seconds and 3 retries. *)
Definition arguments_static_ttl : list (string * string) :=
  [("r53-hosted-zone", "Z1EXAMPLE");
   ("internal-hostname", "lb-internal.example.com");
   ("cname-ttl", "30"); ("aws-api-retries", "3")].

Definition parsed_static_ttl : Globals :=
  store_int addr_awsAPIRetries 3
    (store_duration addr_cnameTimeToLive (30 * 1000000000)
       (store_string addr_internalHostname "lb-internal.example.com"
          (store_string addr_r53HostedZone "Z1EXAMPLE"
             (store_string addr_dnsProvider "aws" (vars CommandLine))))).

Definition static_adapter_30s : FrontendAdapter :=
  StaticHostnameAdapter {["internal" := "lb-internal.example.com"]}
    (30 * 1000000000).

(** The configuration [createFrontendUpdater] hands to the AWS adapter and
    to the two Cloud DNS constructors. *)
Definition aws_config_of (g : Globals) : AWSAdapterConfig :=
  {| Region := elbRegion g; HostedZoneID := r53HostedZone g;
     ELBLabelValue := elbLabelValue g; ALBNames := albNames g |}.

Definition cdns_config_of (g : Globals) : cdnsConfig :=
  {| InstanceGroupPrefix := cdnsInstanceGroupPrefix g;
     HostedZone := cdnsHostedZone g |}.

(** * Properties *)

(** ** The flag set after [init] *)

(** [init] does not panic: the eighteen names are distinct. *)
Lemma init_CommandLine : init CommandLine0 = Some CommandLine.
Proof. vm_compute. reflexivity. Qed.

Lemma formal_CommandLine : formal CommandLine = list_to_map registered.
Proof. vm_compute. reflexivity. Qed.

Lemma lookup_formal (name : string) (v : Value) :
  formal CommandLine !! name = Some v → (name, v) ∈ registered.
Proof. rewrite formal_CommandLine. apply elem_of_list_to_map_2. Qed.

(** The variables as [init] leaves them. *)
Lemma vars_CommandLine :
  vars CommandLine = {|
    debug := false; kubeconfig := ""; resyncPeriod := 15 * Minute;
    healthPort := 12082; albNames := []; elbLabelValue := "";
    elbRegion := "eu-west-1"; r53HostedZone := ""; pushgatewayURL := "";
    pushgatewayIntervalSeconds := 60; pushgatewayLabels := [];
    awsAPIRetries := 5; internalHostname := ""; externalHostname := "";
    cnameTimeToLive := 5 * Minute; dnsProvider := ""; cdnsHostedZone := "";
    cdnsInstanceGroupPrefix := "" |}.
Proof. vm_compute. reflexivity. Qed.

(** Case analysis on a registered flag. *)
Ltac registry_cases H :=
  apply lookup_formal in H; unfold registered in H;
  repeat (apply elem_of_cons in H as [H|H]);
  [ injection H as -> -> .. | by apply elem_of_nil in H ].

Section Parsing.

Variable W : World.

(** No registered flag writes [dnsProvider]. *)
Lemma Value_Set_dnsProvider name v s g g' :
  formal CommandLine !! name = Some v →
  Value_Set W v s g = Some g' →
  dnsProvider g' = dnsProvider g.
Proof.
  intros H Hs. registry_cases H; simpl in Hs; simplify_option_eq; done.
Qed.

(** Only [aws-api-retries] writes [awsAPIRetries]. *)
Lemma Value_Set_awsAPIRetries name v s g g' :
  formal CommandLine !! name = Some v →
  Value_Set W v s g = Some g' →
  if decide (name = "aws-api-retries")
  then ParseInt W s = Some (awsAPIRetries g')
  else awsAPIRetries g' = awsAPIRetries g.
Proof.
  intros H Hs. registry_cases H; simpl in Hs; simplify_option_eq; done.
Qed.

(** Only [cname-ttl] writes [cnameTimeToLive]. *)
Lemma Value_Set_cnameTimeToLive name v s g g' :
  formal CommandLine !! name = Some v →
  Value_Set W v s g = Some g' →
  if decide (name = "cname-ttl")
  then ParseDuration W s = Some (cnameTimeToLive g')
  else cnameTimeToLive g' = cnameTimeToLive g.
Proof.
  intros H Hs. registry_cases H; simpl in Hs; simplify_option_eq; done.
Qed.

(** One step of [Parse] that goes on. *)
Lemma Parse_cons_Ret f name value rest t g :
  Parse W f ((name, value) :: rest) = (t, Ret g) →
  ∃ v g1, formal f !! name = Some v ∧ Value_Set W v value (vars f) = Some g1
          ∧ Parse W {| formal := formal f; vars := g1 |} rest = (t, Ret g).
Proof.
  simpl. destruct (formal f !! name) as [v|]; [|discriminate].
  destruct (Value_Set W v value (vars f)) as [g1|] eqn:Hs; [|discriminate].
  intros H. by exists v, g1.
Qed.

(** [Parse] calls nothing outside. *)
Lemma Parse_trace f arguments : trace (Parse W f arguments) = [].
Proof.
  revert f. induction arguments as [|[name value] rest IH]; intros f; simpl.
  - reflexivity.
  - destruct (formal f !! name) as [v|]; [|reflexivity].
    destruct (Value_Set W v value (vars f)); [apply IH | reflexivity].
Qed.

Lemma Parse_dnsProvider f arguments t g :
  formal f = formal CommandLine →
  Parse W f arguments = (t, Ret g) →
  dnsProvider g = dnsProvider (vars f).
Proof.
  revert f. induction arguments as [|[name value] rest IH]; intros f Hf H.
  - by injection H as _ <-.
  - apply Parse_cons_Ret in H as (v & g1 & Hv & Hs & H).
    rewrite Hf in Hv. rewrite (IH {| formal := formal f; vars := g1 |} Hf H). simpl.
    by eapply Value_Set_dnsProvider.
Qed.

Lemma Parse_awsAPIRetries f arguments t g :
  formal f = formal CommandLine →
  Parse W f arguments = (t, Ret g) →
  match last_argument "aws-api-retries" arguments with
  | None => awsAPIRetries g = awsAPIRetries (vars f)
  | Some s => ParseInt W s = Some (awsAPIRetries g)
  end.
Proof.
  revert f. induction arguments as [|[name value] rest IH]; intros f Hf H.
  - by injection H as _ <-.
  - apply Parse_cons_Ret in H as (v & g1 & Hv & Hs & H).
    rewrite Hf in Hv. specialize (IH {| formal := formal f; vars := g1 |} Hf H). simpl in *.
    destruct (last_argument "aws-api-retries" rest); [done|].
    pose proof (Value_Set_awsAPIRetries _ _ _ _ _ Hv Hs) as Hw.
    destruct (decide (name = "aws-api-retries")); congruence.
Qed.

Lemma Parse_cnameTimeToLive f arguments t g :
  formal f = formal CommandLine →
  Parse W f arguments = (t, Ret g) →
  match last_argument "cname-ttl" arguments with
  | None => cnameTimeToLive g = cnameTimeToLive (vars f)
  | Some s => ParseDuration W s = Some (cnameTimeToLive g)
  end.
Proof.
  revert f. induction arguments as [|[name value] rest IH]; intros f Hf H.
  - by injection H as _ <-.
  - apply Parse_cons_Ret in H as (v & g1 & Hv & Hs & H).
    rewrite Hf in Hv. specialize (IH {| formal := formal f; vars := g1 |} Hf H). simpl in *.
    destruct (last_argument "cname-ttl" rest); [done|].
    pose proof (Value_Set_cnameTimeToLive _ _ _ _ _ Hv Hs) as Hw.
    destruct (decide (name = "cname-ttl")); congruence.
Qed.

End Parsing.

(** ** The configuration checks *)

(** Unfolds the monad so that a run is a pair of a trace and an outcome. *)
Ltac run :=
  unfold validateAwsConfig, validateCdnsConfig, when_, log_Fatal, log_Fatalf,
    exit, call, trace, outcome;
  cbn [mbind mret M_bind M_ret fst snd app].

(** [validateAwsConfig] calls nothing, and either returns or logs one of
    its three lines; the first check that fails decides which. *)
Lemma validateAwsConfig_cases g :
  validateAwsConfig g =
    ([], if decide (r53HostedZone g = "") then Stop (LogFatal line_no_hosted_zone)
         else if decide (elbLabelValue g = "" ∧ length (albNames g) = 0%nat
                         ∧ internalHostname g = "" ∧ externalHostname g = "")
         then Stop (LogFatal line_no_source)
         else if decide ((internalHostname g ≠ "" ∨ externalHostname g ≠ "")
                         ∧ (elbLabelValue g ≠ "" ∨ (0 < length (albNames g))%nat))
         then Stop (LogFatal line_both_sources)
         else Ret tt).
Proof. run. repeat case_decide; reflexivity. Qed.

Lemma validateCdnsConfig_cases g :
  validateCdnsConfig g =
    ([], if decide (cdnsInstanceGroupPrefix g = "") then Stop (LogFatal line_no_prefix)
         else if decide (cdnsHostedZone g = "") then Stop (LogFatal line_no_cdns_zone)
         else Ret tt).
Proof. run. repeat case_decide; reflexivity. Qed.

Lemma length_zero_nil {A} (l : list A) : length l = 0%nat ↔ l = [].
Proof. destruct l; naive_solver. Qed.

Lemma length_pos_nonnil {A} (l : list A) : (0 < length l)%nat ↔ l ≠ [].
Proof. destruct l; simpl; split; try done; lia. Qed.

Section Updater.

Variable W : World.

(** [createFrontendUpdater] on the [aws] branch once validation has
    passed, with a static hostname. *)
Lemma createFrontendUpdater_aws_static g :
  dnsProvider g = "aws" →
  validateAwsConfig g = ([], Ret tt) →
  internalHostname g ≠ "" ∨ externalHostname g ≠ "" →
  createFrontendUpdater W g =
    (let a := StaticHostnameAdapter (addressesWithScheme_of g) (cnameTimeToLive g) in
     ([call_NewStaticHostnameAdapter (addressesWithScheme_of g) (cnameTimeToLive g);
       call_dns_New (r53HostedZone g) a (awsAPIRetries g)],
      Ret (Ok (dns_Updater (r53HostedZone g) a (awsAPIRetries g))))).
Proof.
  intros Hp Hv Hs. unfold createFrontendUpdater.
  rewrite decide_True by done. rewrite Hv.
  rewrite (decide_True _ _ Hs). reflexivity.
Qed.

(** The same branch without a static hostname: the AWS adapter, which may
    fail to build. *)
Lemma createFrontendUpdater_aws_discovery g :
  dnsProvider g = "aws" →
  validateAwsConfig g = ([], Ret tt) →
  ¬ (internalHostname g ≠ "" ∨ externalHostname g ≠ "") →
  createFrontendUpdater W g =
    (let config := {| Region := elbRegion g; HostedZoneID := r53HostedZone g;
                      ELBLabelValue := elbLabelValue g;
                      ALBNames := albNames g |} in
     match NewAWSAdapter_err W config with
     | None =>
         ([call_NewAWSAdapter config;
           call_dns_New (r53HostedZone g) (AWSAdapter config) (awsAPIRetries g)],
          Ret (Ok (dns_Updater (r53HostedZone g) (AWSAdapter config)
                     (awsAPIRetries g))))
     | Some e =>
         ([call_NewAWSAdapter config],
          Ret (Err (Errorf "unable to create aws adapater: %v"
                      [argError (extErr e)])))
     end).
Proof.
  intros Hp Hv Hs. unfold createFrontendUpdater.
  rewrite decide_True by done. rewrite Hv.
  rewrite (decide_False _ _ Hs). unfold adapter_NewAWSAdapter. run.
  by destruct (NewAWSAdapter_err W _).
Qed.

(** A failed validation on the [aws] branch ends the run there. *)
Lemma createFrontendUpdater_aws_fatal g e :
  dnsProvider g = "aws" →
  validateAwsConfig g = ([], Stop e) →
  createFrontendUpdater W g = ([], Stop e).
Proof.
  intros Hp Hv. unfold createFrontendUpdater.
  rewrite decide_True by done. by rewrite Hv.
Qed.

(** The [gcp] branch. *)
Lemma createFrontendUpdater_gcp g :
  dnsProvider g = "gcp" →
  createFrontendUpdater W g =
    (let config := {| InstanceGroupPrefix := cdnsInstanceGroupPrefix g;
                      HostedZone := cdnsHostedZone g |} in
     match validateCdnsConfig g with
     | (_, Ret _) =>
         match cdns_NewAdapter_err W config with
         | Some e =>
             ([call_cdns_NewAdapter config],
              Ret (Err (Errorf "unable to create gcp adapater: %v"
                          [argError (extErr e)])))
         | None =>
             ([call_cdns_NewAdapter config; call_cdns_NewUpdater config],
              Ret match cdns_NewUpdater_err W config with
                  | None => Ok (cdns_Updater config)
                  | Some e => Err (extErr e)
                  end)
         end
     | (_, Stop e) => ([], Stop e)
     | (_, Blocked) => ([], Blocked)
     end).
Proof.
  intros Hp. unfold createFrontendUpdater.
  rewrite decide_False by (rewrite Hp; discriminate).
  rewrite decide_True by done. rewrite validateCdnsConfig_cases.
  unfold cdns_NewAdapter, cdns_NewUpdater. run.
  repeat case_decide; try reflexivity.
  by destruct (cdns_NewAdapter_err W _).
Qed.

(** Any other provider: the error, and nothing called. *)
Lemma createFrontendUpdater_default g :
  dnsProvider g ≠ "aws" → dnsProvider g ≠ "gcp" →
  createFrontendUpdater W g =
    ([], Ret (Err (Errorf
       "invalid dns-provider %q. Must specify a valid value: aws, gcp"
       [argString (dnsProvider g)]))).
Proof.
  intros H1 H2. unfold createFrontendUpdater.
  by rewrite !decide_False by done.
Qed.

End Updater.

(** ** General facts about a run of [createFrontendUpdater] *)

Lemma validateAwsConfig_outcome g :
  validateAwsConfig g = ([], Ret tt)
  ∨ ∃ line, validateAwsConfig g = ([], Stop (LogFatal line)).
Proof.
  rewrite validateAwsConfig_cases. repeat case_decide; eauto.
Qed.

Lemma validateCdnsConfig_outcome g :
  validateCdnsConfig g = ([], Ret tt)
  ∨ ∃ line, validateCdnsConfig g = ([], Stop (LogFatal line)).
Proof.
  rewrite validateCdnsConfig_cases. repeat case_decide; eauto.
Qed.

Lemma createFrontendUpdater_run W g :
  updater_run W g (createFrontendUpdater W g).
Proof.
  destruct (decide (dnsProvider g = "aws")) as [Ha|Ha].
  - destruct (validateAwsConfig_outcome g) as [Hv|[line Hv]].
    + destruct (decide (static_configured g)) as [Hs|Hs].
      * rewrite createFrontendUpdater_aws_static by done. by constructor.
      * rewrite createFrontendUpdater_aws_discovery by done. cbv zeta.
        destruct (NewAWSAdapter_err W _) eqn:He; by constructor.
    + rewrite (createFrontendUpdater_aws_fatal W g _ Ha Hv). constructor.
  - destruct (decide (dnsProvider g = "gcp")) as [Hg|Hg].
    + rewrite createFrontendUpdater_gcp by done. cbv zeta.
      destruct (validateCdnsConfig_outcome g) as [Hv|[line Hv]]; rewrite Hv.
      * destruct (cdns_NewAdapter_err W _) eqn:He; [by constructor|].
        destruct (cdns_NewUpdater_err W _) eqn:Hu; by constructor.
      * constructor.
    + rewrite createFrontendUpdater_default by done. by constructor.
Qed.

(** ** Provider selection *)

(** C1 (the code departs from it). Whatever the command line, once
    [flag.Parse] has gone through, [dnsProvider] still holds its zero
    value: [init] binds the [dns-provider] flag to [cdnsHostedZone], and no
    flag writes [dnsProvider]. So [createFrontendUpdater] takes neither the
    [aws] nor the [gcp] branch and returns the invalid-provider error, also
    when the flag was given as [aws] or [gcp]. *)
Theorem dns_provider_flag_never_selects W arguments t g :
  Parse W CommandLine arguments = (t, Ret g) →
  dnsProvider g = ""
  ∧ createFrontendUpdater W g =
      ([], Ret (Err (Errorf
         "invalid dns-provider %q. Must specify a valid value: aws, gcp"
         [argString ""]))).
Proof.
  intros H. apply Parse_dnsProvider in H; [|done].
  rewrite vars_CommandLine in H. simpl in H. split; [done|].
  rewrite createFrontendUpdater_default; rewrite H; done.
Qed.

(** The run on [-dns-provider=aws -r53-hosted-zone=Z1EXAMPLE
    -elb-label-value=prod]: the flag's argument lands in [cdnsHostedZone]. *)
Lemma dns_provider_flag_never_selects_witness :
  Parse calm_world CommandLine arguments_aws_elb = ([], Ret parsed_aws_elb)
  ∧ dnsProvider parsed_aws_elb = ""
  ∧ createFrontendUpdater calm_world parsed_aws_elb =
      ([], Ret (Err (Errorf
         "invalid dns-provider %q. Must specify a valid value: aws, gcp"
         [argString ""]))).
Proof.
  assert (H : Parse calm_world CommandLine arguments_aws_elb
              = ([], Ret parsed_aws_elb)) by (vm_compute; reflexivity).
  split; [exact H|].
  exact (dns_provider_flag_never_selects calm_world arguments_aws_elb []
           parsed_aws_elb H).
Defined.

(** The whole program on that command line ends in [log.Fatalf]. *)
Example program_dns_provider_aws :
  program calm_world arguments_aws_elb =
    Some ([call_ConfigureLogging false;
           call_ConfigureMetrics "feed-dns" [] "" 60;
           call_k8s_New "" (15 * Minute)],
          Stop (LogFatal (Fatalf_line "Unable to create dns updater: %v"
            [argError (Errorf
               "invalid dns-provider %q. Must specify a valid value: aws, gcp"
               [argString ""])]))).
Proof. vm_compute. reflexivity. Qed.

(** ** One adapter per updater *)

(** C2 as the specification words it fails on the [gcp] branch when a
    static hostname is set: the adapter built is the Cloud DNS one. *)
Lemma one_adapter_static_first_fails :
  ¬ one_adapter_static_first calm_world gcp_static_internal.
Proof.
  intros H.
  destruct (H (cdns_Updater {| InstanceGroupPrefix := "ingress-";
                               HostedZone := "example-zone" |}))
    as (a & Ha & _ & Hk); [vm_compute; reflexivity|].
  vm_compute in Ha. injection Ha as <-. vm_compute in Hk. discriminate.
Qed.

(** C2 (amended). When [createFrontendUpdater] succeeds, exactly one
    adapter was built: on the [aws] branch the static-hostname adapter if a
    static hostname is set and the AWS adapter otherwise, on the [gcp]
    branch the Cloud DNS adapter; on the [aws] branch it is the adapter the
    returned updater was given. *)
Theorem one_adapter_per_updater W g u :
  outcome (createFrontendUpdater W g) = Ret (Ok u) →
  ∃ a, adapters_constructed W (trace (createFrontendUpdater W g)) = [a]
       ∧ kind a = kind_provider_first g
       ∧ (dnsProvider g = "aws" → adapter_of u = Some a).
Proof.
  unfold kind_provider_first.
  destruct (createFrontendUpdater_run W g)
    as [ | | Ha Hs a | config Ha Hs He | | config Hg He Hu | | ];
    cbn [outcome trace fst snd]; intros Hu'; try discriminate;
    injection Hu' as <-.
  - exists a. rewrite !decide_True by done. done.
  - exists (AWSAdapter config). unfold adapters_constructed. cbn. rewrite He.
    rewrite decide_True, decide_False by done. done.
  - exists (cdns_Adapter config). unfold adapters_constructed. cbn. rewrite He.
    rewrite decide_False by (rewrite Hg; discriminate).
    split; [done|]. split; [done|]. rewrite Hg. discriminate.
Qed.

Lemma one_adapter_per_updater_witness :
  outcome (createFrontendUpdater calm_world aws_static_internal)
    = Ret (Ok (dns_Updater "Z1EXAMPLE" static_internal_adapter 5))
  ∧ ∃ a, adapters_constructed calm_world
           (trace (createFrontendUpdater calm_world aws_static_internal)) = [a]
         ∧ kind a = kind_provider_first aws_static_internal
         ∧ (dnsProvider aws_static_internal = "aws" →
            adapter_of (dns_Updater "Z1EXAMPLE" static_internal_adapter 5)
            = Some a).
Proof.
  assert (H : outcome (createFrontendUpdater calm_world aws_static_internal)
              = Ret (Ok (dns_Updater "Z1EXAMPLE" static_internal_adapter 5)))
    by (vm_compute; reflexivity).
  split; [exact H|].
  exact (one_adapter_per_updater calm_world aws_static_internal _ H).
Defined.

(** ** Configuration errors and [controller.Start] *)

Section Main.

Variable W : World.

(** [createFrontendUpdater] never starts the controller. *)
Lemma createFrontendUpdater_no_Start g c :
  call_controller_Start c ∉ trace (createFrontendUpdater W g).
Proof.
  destruct (createFrontendUpdater_run W g); cbn [trace fst];
    intros Hin;
    repeat (apply elem_of_cons in Hin as [Hin|Hin]; [discriminate|]);
    by apply elem_of_nil in Hin.
Qed.

(** It returns or ends the process through [log.Fatal]; it never waits. *)
Lemma createFrontendUpdater_ends g :
  (∃ r, outcome (createFrontendUpdater W g) = Ret r)
  ∨ (∃ line, outcome (createFrontendUpdater W g) = Stop (LogFatal line)).
Proof.
  destruct (createFrontendUpdater_run W g); cbn [outcome snd]; eauto.
Qed.

(** [main] up to the updater: the three calls before it, then the calls of
    [createFrontendUpdater]. *)
Lemma main_after_Parse_failed_updater g :
  (∀ u, outcome (createFrontendUpdater W g) ≠ Ret (Ok u)) →
  ∃ t line,
    main_after_Parse W g =
      ((call_ConfigureLogging (debug g)
        :: call_ConfigureMetrics "feed-dns" (pushgatewayLabels g)
             (pushgatewayURL g) (pushgatewayIntervalSeconds g)
        :: call_k8s_New (kubeconfig g) (resyncPeriod g)
        :: t)%list, Stop (LogFatal line))
    ∧ (t = [] ∨ t = trace (createFrontendUpdater W g)).
Proof.
  intros Hu. unfold main_after_Parse, cmd_ConfigureLogging,
    cmd_ConfigureMetrics, k8s_New. run.
  destruct (k8s_New_err W _ _) as [e|]; [by eauto|].
  destruct (createFrontendUpdater_ends g) as [[r Hr]|[line Hl]].
  - destruct (createFrontendUpdater W g) as [t o] eqn:Hc.
    cbn [outcome snd] in *. subst o. destruct r as [u|err].
    + by destruct (Hu u).
    + run. rewrite app_nil_r. eauto.
  - destruct (createFrontendUpdater W g) as [t o] eqn:Hc.
    cbn [outcome snd] in *. subst o. eauto.
Qed.

End Main.

(** C3. When the flags parse but validation or the creation of the updater
    fails, [main] ends in [log.Fatal] and [controller.Start] is not among
    the calls it made. *)
Theorem configuration_error_stops_before_Start W f arguments t g :
  Parse W f arguments = (t, Ret g) →
  (∀ u, outcome (createFrontendUpdater W g) ≠ Ret (Ok u)) →
  (∃ line, outcome (main W f arguments) = Stop (LogFatal line))
  ∧ ∀ c, call_controller_Start c ∉ trace (main W f arguments).
Proof.
  intros Hp Hu.
  destruct (main_after_Parse_failed_updater W g Hu) as (t' & line & Hm & Ht').
  pose proof (Parse_trace W f arguments) as Ht. rewrite Hp in Ht.
  cbn [trace fst] in Ht. subst t.
  unfold main. rewrite Hp. cbn [mbind M_bind]. rewrite Hm.
  cbn [app outcome trace fst snd]. split; [by eauto|].
  intros c H.
  repeat (apply elem_of_cons in H as [H|H]; [discriminate|]).
  destruct Ht' as [->| ->].
  - by apply elem_of_nil in H.
  - by apply createFrontendUpdater_no_Start in H.
Qed.

Lemma configuration_error_stops_before_Start_witness :
  Parse calm_world CommandLine arguments_aws_elb = ([], Ret parsed_aws_elb)
  ∧ (∀ u, outcome (createFrontendUpdater calm_world parsed_aws_elb)
          ≠ Ret (Ok u))
  ∧ (∃ line, outcome (main calm_world CommandLine arguments_aws_elb)
             = Stop (LogFatal line))
  ∧ ∀ c, call_controller_Start c
         ∉ trace (main calm_world CommandLine arguments_aws_elb).
Proof.
  assert (H1 : Parse calm_world CommandLine arguments_aws_elb
               = ([], Ret parsed_aws_elb)) by (vm_compute; reflexivity).
  assert (H2 : ∀ u, outcome (createFrontendUpdater calm_world parsed_aws_elb)
                    ≠ Ret (Ok u)) by (intros u; vm_compute; discriminate).
  split; [exact H1|]. split; [exact H2|].
  exact (configuration_error_stops_before_Start calm_world CommandLine
           arguments_aws_elb [] parsed_aws_elb H1 H2).
Defined.

(** With a valid configuration in the variables, [main] does reach
    [controller.Start] and then waits. *)
Example main_reaches_Start :
  ∃ t c, main_after_Parse calm_world aws_elb = (t, Blocked)
         ∧ last t = Some (call_controller_Start c).
Proof. eexists _, _. vm_compute. split; reflexivity. Qed.

(** ** Fatal configuration errors *)

(** C4. On the [aws] branch, a static hostname (internal or external)
    together with a discovery source ([elb-label-value] or [alb-names]) makes
    [validateAwsConfig] end the process in [log.Fatal], so
    [createFrontendUpdater] ends there too, before any call: no adapter and
    no updater is built. The line logged is the one about both sources,
    unless the hosted zone is missing as well, which is reported first. *)
Theorem static_and_discovery_is_fatal W g :
  dnsProvider g = "aws" →
  internalHostname g ≠ "" ∨ externalHostname g ≠ "" →
  elbLabelValue g ≠ "" ∨ albNames g ≠ [] →
  validateAwsConfig g =
    ([], Stop (LogFatal (if decide (r53HostedZone g = "")
                         then line_no_hosted_zone else line_both_sources)))
  ∧ createFrontendUpdater W g =
    ([], Stop (LogFatal (if decide (r53HostedZone g = "")
                         then line_no_hosted_zone else line_both_sources))).
Proof.
  intros Hp Hs Hd.
  assert (Hv : validateAwsConfig g =
    ([], Stop (LogFatal (if decide (r53HostedZone g = "")
                         then line_no_hosted_zone else line_both_sources)))).
  { rewrite validateAwsConfig_cases. rewrite <- length_pos_nonnil in Hd.
    destruct (decide (r53HostedZone g = "")); [done|].
    rewrite decide_False by (intros (_ & _ & ? & ?); by destruct Hs).
    by rewrite decide_True. }
  split; [done|]. by apply createFrontendUpdater_aws_fatal.
Qed.

Lemma static_and_discovery_is_fatal_witness :
  dnsProvider aws_static_and_elb = "aws"
  ∧ (internalHostname aws_static_and_elb ≠ ""
     ∨ externalHostname aws_static_and_elb ≠ "")
  ∧ (elbLabelValue aws_static_and_elb ≠ "" ∨ albNames aws_static_and_elb ≠ [])
  ∧ validateAwsConfig aws_static_and_elb = ([], Stop (LogFatal line_both_sources))
  ∧ createFrontendUpdater calm_world aws_static_and_elb
    = ([], Stop (LogFatal line_both_sources)).
Proof.
  assert (H1 : dnsProvider aws_static_and_elb = "aws") by reflexivity.
  assert (H2 : internalHostname aws_static_and_elb ≠ ""
               ∨ externalHostname aws_static_and_elb ≠ "")
    by (left; vm_compute; discriminate).
  assert (H3 : elbLabelValue aws_static_and_elb ≠ ""
               ∨ albNames aws_static_and_elb ≠ [])
    by (left; vm_compute; discriminate).
  split; [exact H1|]. split; [exact H2|]. split; [exact H3|].
  exact (static_and_discovery_is_fatal calm_world aws_static_and_elb H1 H2 H3).
Defined.

(** C5. Missing mandatory configuration ends the process in [log.Fatal]
    before any call. On the [aws] branch: an empty [r53-hosted-zone], or none
    of [alb-names], [elb-label-value], [internal-hostname] and
    [external-hostname]. On the [gcp] branch: an empty
    [cdns-instance-group-prefix] or an empty Cloud DNS hosted zone. *)
Theorem missing_mandatory_configuration_is_fatal W g :
  (dnsProvider g = "aws"
   ∧ (r53HostedZone g = ""
      ∨ (albNames g = [] ∧ elbLabelValue g = ""
         ∧ internalHostname g = "" ∧ externalHostname g = "")))
  ∨ (dnsProvider g = "gcp"
     ∧ (cdnsInstanceGroupPrefix g = "" ∨ cdnsHostedZone g = "")) →
  ∃ line,
    createFrontendUpdater W g = ([], Stop (LogFatal line))
    ∧ (dnsProvider g = "aws" →
       validateAwsConfig g = ([], Stop (LogFatal line))
       ∧ (line = line_no_hosted_zone ∨ line = line_no_source))
    ∧ (dnsProvider g = "gcp" →
       validateCdnsConfig g = ([], Stop (LogFatal line))
       ∧ (line = line_no_prefix ∨ line = line_no_cdns_zone)).
Proof.
  intros [[Hp H]|[Hp H]].
  - assert (∃ line, validateAwsConfig g = ([], Stop (LogFatal line))
                    ∧ (line = line_no_hosted_zone ∨ line = line_no_source))
      as (line & Hv & Hl).
    { rewrite validateAwsConfig_cases.
      destruct (decide (r53HostedZone g = "")); [by eauto|].
      destruct H as [?|(Ha & ? & ? & ?)]; [done|].
      apply length_zero_nil in Ha. rewrite decide_True by done. by eauto. }
    exists line. split; [by apply createFrontendUpdater_aws_fatal|].
    split; [done|]. rewrite Hp. discriminate.
  - assert (∃ line, validateCdnsConfig g = ([], Stop (LogFatal line))
                    ∧ (line = line_no_prefix ∨ line = line_no_cdns_zone))
      as (line & Hv & Hl).
    { rewrite validateCdnsConfig_cases.
      destruct (decide (cdnsInstanceGroupPrefix g = "")); [by eauto|].
      destruct H as [?|?]; [done|]. rewrite decide_True by done. by eauto. }
    exists line. split.
    + rewrite createFrontendUpdater_gcp by done. cbv zeta. by rewrite Hv.
    + split; [|done]. rewrite Hp. discriminate.
Qed.

Lemma missing_mandatory_configuration_is_fatal_witness :
  ((dnsProvider aws_no_zone = "aws"
    ∧ (r53HostedZone aws_no_zone = ""
       ∨ (albNames aws_no_zone = [] ∧ elbLabelValue aws_no_zone = ""
          ∧ internalHostname aws_no_zone = ""
          ∧ externalHostname aws_no_zone = "")))
   ∨ (dnsProvider aws_no_zone = "gcp"
      ∧ (cdnsInstanceGroupPrefix aws_no_zone = ""
         ∨ cdnsHostedZone aws_no_zone = "")))
  ∧ ∃ line,
      createFrontendUpdater calm_world aws_no_zone = ([], Stop (LogFatal line))
      ∧ (dnsProvider aws_no_zone = "aws" →
         validateAwsConfig aws_no_zone = ([], Stop (LogFatal line))
         ∧ (line = line_no_hosted_zone ∨ line = line_no_source))
      ∧ (dnsProvider aws_no_zone = "gcp" →
         validateCdnsConfig aws_no_zone = ([], Stop (LogFatal line))
         ∧ (line = line_no_prefix ∨ line = line_no_cdns_zone)).
Proof.
  assert (H : (dnsProvider aws_no_zone = "aws"
    ∧ (r53HostedZone aws_no_zone = ""
       ∨ (albNames aws_no_zone = [] ∧ elbLabelValue aws_no_zone = ""
          ∧ internalHostname aws_no_zone = ""
          ∧ externalHostname aws_no_zone = "")))
   ∨ (dnsProvider aws_no_zone = "gcp"
      ∧ (cdnsInstanceGroupPrefix aws_no_zone = ""
         ∨ cdnsHostedZone aws_no_zone = "")))
    by (left; split; [reflexivity | left; reflexivity]).
  split; [exact H|].
  exact (missing_mandatory_configuration_is_fatal calm_world aws_no_zone H).
Defined.

(** ** The static adapter *)

Lemma validateAwsConfig_trace g : trace (validateAwsConfig g) = [].
Proof. by rewrite validateAwsConfig_cases. Qed.

Lemma validateAwsConfig_passes g :
  outcome (validateAwsConfig g) = Ret tt → validateAwsConfig g = ([], Ret tt).
Proof.
  pose proof (validateAwsConfig_trace g) as Ht.
  destruct (validateAwsConfig g) as [t o]. cbn [trace outcome fst snd] in *.
  by intros ->; subst.
Qed.

(** The keys of the map built at lines 134-141. *)
Lemma addressesWithScheme_of_internal g v :
  addressesWithScheme_of g !! "internal" = Some v
  ↔ internalHostname g ≠ "" ∧ v = internalHostname g.
Proof.
  unfold addressesWithScheme_of. repeat case_decide;
    rewrite ?(lookup_insert_ne _ "internet-facing" "internal") by done;
    rewrite ?lookup_insert_eq, ?lookup_empty; intuition congruence.
Qed.

Lemma addressesWithScheme_of_external g v :
  addressesWithScheme_of g !! "internet-facing" = Some v
  ↔ externalHostname g ≠ "" ∧ v = externalHostname g.
Proof.
  unfold addressesWithScheme_of. repeat case_decide;
    rewrite ?lookup_insert_eq;
    rewrite ?(lookup_insert_ne _ "internal" "internet-facing") by done;
    rewrite ?lookup_empty; intuition congruence.
Qed.

Lemma addressesWithScheme_of_other g (k : string) :
  k ≠ "internal" → k ≠ "internet-facing" →
  addressesWithScheme_of g !! k = None.
Proof.
  intros H1 H2. unfold addressesWithScheme_of.
  repeat case_decide; rewrite ?lookup_insert_ne by done; apply lookup_empty.
Qed.

(** Where a call to [NewStaticHostnameAdapter] or to [dns.New] in the trace
    comes from. *)
Lemma static_call_inv W g m ttl :
  call_NewStaticHostnameAdapter m ttl ∈ trace (createFrontendUpdater W g) →
  dnsProvider g = "aws" ∧ static_configured g
  ∧ m = addressesWithScheme_of g ∧ ttl = cnameTimeToLive g.
Proof.
  destruct (createFrontendUpdater_run W g); cbn [trace fst]; intros Hin;
    repeat (apply elem_of_cons in Hin as [Hin|Hin]; [try discriminate|]);
    try (by apply elem_of_nil in Hin).
  by injection Hin as -> ->.
Qed.

Lemma dns_New_call_inv W g z a n :
  call_dns_New z a n ∈ trace (createFrontendUpdater W g) →
  dnsProvider g = "aws" ∧ z = r53HostedZone g ∧ n = awsAPIRetries g
  ∧ outcome (createFrontendUpdater W g) = Ret (Ok (dns_Updater z a n)).
Proof.
  destruct (createFrontendUpdater_run W g); cbn [trace outcome fst snd];
    intros Hin;
    repeat (apply elem_of_cons in Hin as [Hin|Hin]; [try discriminate|]);
    try (by apply elem_of_nil in Hin);
    by injection Hin as -> -> ->.
Qed.

(** C6. On the [aws] branch, with a static hostname set and validation
    passed, [createFrontendUpdater] calls [NewStaticHostnameAdapter] once,
    with a map that has [internal] exactly when [internal-hostname] is not
    empty (and then maps it to that value), [internet-facing] exactly when
    [external-hostname] is not empty (likewise), and no other key. *)
Theorem static_adapter_map_from_overrides W g :
  dnsProvider g = "aws" →
  internalHostname g ≠ "" ∨ externalHostname g ≠ "" →
  outcome (validateAwsConfig g) = Ret tt →
  ∃ m : gmap string string,
    trace (createFrontendUpdater W g) =
      [call_NewStaticHostnameAdapter m (cnameTimeToLive g);
       call_dns_New (r53HostedZone g)
         (StaticHostnameAdapter m (cnameTimeToLive g)) (awsAPIRetries g)]
    ∧ (∀ v, m !! "internal" = Some v
            ↔ internalHostname g ≠ "" ∧ v = internalHostname g)
    ∧ (∀ v, m !! "internet-facing" = Some v
            ↔ externalHostname g ≠ "" ∧ v = externalHostname g)
    ∧ (∀ k, k ≠ "internal" → k ≠ "internet-facing" → m !! k = None).
Proof.
  intros Hp Hs Hv%validateAwsConfig_passes.
  exists (addressesWithScheme_of g).
  rewrite createFrontendUpdater_aws_static by done.
  split; [done|]. split; [apply addressesWithScheme_of_internal|].
  split; [apply addressesWithScheme_of_external|].
  apply addressesWithScheme_of_other.
Qed.

Lemma static_adapter_map_from_overrides_witness :
  dnsProvider aws_static_internal = "aws"
  ∧ (internalHostname aws_static_internal ≠ ""
     ∨ externalHostname aws_static_internal ≠ "")
  ∧ outcome (validateAwsConfig aws_static_internal) = Ret tt
  ∧ ∃ m : gmap string string,
      trace (createFrontendUpdater calm_world aws_static_internal) =
        [call_NewStaticHostnameAdapter m (cnameTimeToLive aws_static_internal);
         call_dns_New (r53HostedZone aws_static_internal)
           (StaticHostnameAdapter m (cnameTimeToLive aws_static_internal))
           (awsAPIRetries aws_static_internal)]
      ∧ (∀ v, m !! "internal" = Some v
              ↔ internalHostname aws_static_internal ≠ ""
                ∧ v = internalHostname aws_static_internal)
      ∧ (∀ v, m !! "internet-facing" = Some v
              ↔ externalHostname aws_static_internal ≠ ""
                ∧ v = externalHostname aws_static_internal)
      ∧ (∀ k, k ≠ "internal" → k ≠ "internet-facing" → m !! k = None).
Proof.
  assert (H1 : dnsProvider aws_static_internal = "aws") by reflexivity.
  assert (H2 : internalHostname aws_static_internal ≠ ""
               ∨ externalHostname aws_static_internal ≠ "")
    by (left; vm_compute; discriminate).
  assert (H3 : outcome (validateAwsConfig aws_static_internal) = Ret tt)
    by (vm_compute; reflexivity).
  split; [exact H1|]. split; [exact H2|]. split; [exact H3|].
  exact (static_adapter_map_from_overrides calm_world aws_static_internal
           H1 H2 H3).
Defined.

(** C7. The TTL given to [NewStaticHostnameAdapter] is the one configured.
    Take the flags as [init] registers them, the TTL variable as [init] left
    it and the other variables as they may be; let [flag.Parse] go through
    and [createFrontendUpdater] run on what it left. Then a call to
    [NewStaticHostnameAdapter] carries [cnameTimeToLive], which is what the
    last [-cname-ttl] argument parses to, or 5 minutes when the flag is not
    on the command line. *)
Theorem static_adapter_gets_cname_ttl W f arguments t g m ttl :
  formal f = formal CommandLine →
  cnameTimeToLive (vars f) = cnameTimeToLive (vars CommandLine) →
  Parse W f arguments = (t, Ret g) →
  call_NewStaticHostnameAdapter m ttl ∈ trace (createFrontendUpdater W g) →
  ttl = cnameTimeToLive g
  ∧ match last_argument "cname-ttl" arguments with
    | None => ttl = 5 * Minute
    | Some s => ParseDuration W s = Some ttl
    end.
Proof.
  intros Hf Hinit Hp (_ & _ & _ & ->)%static_call_inv. split; [done|].
  apply Parse_cnameTimeToLive in Hp; [|done].
  rewrite Hinit, vars_CommandLine in Hp.
  by destruct (last_argument "cname-ttl" arguments).
Qed.

Lemma static_adapter_gets_cname_ttl_witness :
  formal (CommandLine_with_provider "aws") = formal CommandLine
  ∧ cnameTimeToLive (vars (CommandLine_with_provider "aws"))
    = cnameTimeToLive (vars CommandLine)
  ∧ Parse calm_world (CommandLine_with_provider "aws") arguments_static_ttl
    = ([], Ret parsed_static_ttl)
  ∧ call_NewStaticHostnameAdapter {["internal" := "lb-internal.example.com"]}
        (30 * 1000000000)
      ∈ trace (createFrontendUpdater calm_world parsed_static_ttl)
  ∧ 30 * 1000000000 = cnameTimeToLive parsed_static_ttl
  ∧ ParseDuration calm_world "30" = Some (30 * 1000000000).
Proof.
  assert (H1 : formal (CommandLine_with_provider "aws") = formal CommandLine)
    by reflexivity.
  assert (H2 : cnameTimeToLive (vars (CommandLine_with_provider "aws"))
               = cnameTimeToLive (vars CommandLine)) by reflexivity.
  assert (H3 : Parse calm_world (CommandLine_with_provider "aws")
                 arguments_static_ttl = ([], Ret parsed_static_ttl))
    by (vm_compute; reflexivity).
  assert (H4 : call_NewStaticHostnameAdapter
                 {["internal" := "lb-internal.example.com"]} (30 * 1000000000)
               ∈ trace (createFrontendUpdater calm_world parsed_static_ttl))
    by (vm_compute; apply list_elem_of_here).
  split; [exact H1|]. split; [exact H2|]. split; [exact H3|].
  split; [exact H4|].
  exact (static_adapter_gets_cname_ttl calm_world
           (CommandLine_with_provider "aws") arguments_static_ttl []
           parsed_static_ttl _ _ H1 H2 H3 H4).
Defined.

(** ** The retry bound *)

(** C8. The retry count given to [dns.New] is the one configured. Take
    the flags as [init] registers them, the retry variable as [init] left it
    and the other variables as they may be; let [flag.Parse] go through and
    [createFrontendUpdater] run on what it left. Then [dns.New] is called on
    the [aws] branch only, what it returns is the updater handed back, and its
    retry count is [awsAPIRetries], which is what the last
    [-aws-api-retries] argument parses to, or 5 when the flag is not on the
    command line. *)
Theorem aws_updater_gets_api_retries W f arguments t g z a n :
  formal f = formal CommandLine →
  awsAPIRetries (vars f) = awsAPIRetries (vars CommandLine) →
  Parse W f arguments = (t, Ret g) →
  call_dns_New z a n ∈ trace (createFrontendUpdater W g) →
  (dnsProvider g = "aws" ∧ n = awsAPIRetries g
   ∧ outcome (createFrontendUpdater W g) = Ret (Ok (dns_Updater z a n)))
  ∧ match last_argument "aws-api-retries" arguments with
    | None => n = 5
    | Some s => ParseInt W s = Some n
    end.
Proof.
  intros Hf Hinit Hparse (Hp & _ & Hn & Hu)%dns_New_call_inv.
  split; [done|]. subst n.
  apply Parse_awsAPIRetries in Hparse; [|done].
  rewrite Hinit, vars_CommandLine in Hparse.
  by destruct (last_argument "aws-api-retries" arguments).
Qed.

Lemma aws_updater_gets_api_retries_witness :
  formal (CommandLine_with_provider "aws") = formal CommandLine
  ∧ awsAPIRetries (vars (CommandLine_with_provider "aws"))
    = awsAPIRetries (vars CommandLine)
  ∧ Parse calm_world (CommandLine_with_provider "aws") arguments_static_ttl
    = ([], Ret parsed_static_ttl)
  ∧ call_dns_New "Z1EXAMPLE" static_adapter_30s 3
      ∈ trace (createFrontendUpdater calm_world parsed_static_ttl)
  ∧ (dnsProvider parsed_static_ttl = "aws"
     ∧ 3 = awsAPIRetries parsed_static_ttl
     ∧ outcome (createFrontendUpdater calm_world parsed_static_ttl)
       = Ret (Ok (dns_Updater "Z1EXAMPLE" static_adapter_30s 3)))
  ∧ ParseInt calm_world "3" = Some 3.
Proof.
  assert (H1 : formal (CommandLine_with_provider "aws") = formal CommandLine)
    by reflexivity.
  assert (H2 : awsAPIRetries (vars (CommandLine_with_provider "aws"))
               = awsAPIRetries (vars CommandLine)) by reflexivity.
  assert (H3 : Parse calm_world (CommandLine_with_provider "aws")
                 arguments_static_ttl = ([], Ret parsed_static_ttl))
    by (vm_compute; reflexivity).
  assert (H4 : call_dns_New "Z1EXAMPLE" static_adapter_30s 3
               ∈ trace (createFrontendUpdater calm_world parsed_static_ttl))
    by (vm_compute; apply list_elem_of_further, list_elem_of_here).
  split; [exact H1|]. split; [exact H2|]. split; [exact H3|].
  split; [exact H4|].
  exact (aws_updater_gets_api_retries calm_world
           (CommandLine_with_provider "aws") arguments_static_ttl []
           parsed_static_ttl _ _ _ H1 H2 H3 H4).
Defined.

(** ** One static hostname only *)

(** C9. On the [aws] branch, with a hosted zone and no discovery source,
    giving one of [internal-hostname] and [external-hostname] alone passes
    validation; the updater is built over the static adapter, whose map has
    the one entry of the scheme given and nothing for the other scheme. *)
Theorem single_static_hostname_accepted W g :
  dnsProvider g = "aws" →
  r53HostedZone g ≠ "" →
  elbLabelValue g = "" → albNames g = [] →
  (internalHostname g ≠ "" ∧ externalHostname g = "")
  ∨ (internalHostname g = "" ∧ externalHostname g ≠ "") →
  validateAwsConfig g = ([], Ret tt)
  ∧ ∃ m : gmap string string,
      outcome (createFrontendUpdater W g) =
        Ret (Ok (dns_Updater (r53HostedZone g)
                   (StaticHostnameAdapter m (cnameTimeToLive g))
                   (awsAPIRetries g)))
      ∧ m = (if decide (internalHostname g ≠ "")
             then {["internal" := internalHostname g]}
             else {["internet-facing" := externalHostname g]})
      ∧ (externalHostname g = "" → m !! "internet-facing" = None)
      ∧ (internalHostname g = "" → m !! "internal" = None).
Proof.
  intros Hp Hz He Ha Hone.
  assert (Hv : validateAwsConfig g = ([], Ret tt)).
  { rewrite validateAwsConfig_cases. rewrite decide_False by done.
    rewrite decide_False by (intros (_ & _ & ? & ?); by destruct Hone as [[]|[]]).
    rewrite decide_False; [done|].
    intros (_ & [?|Hl]); [done|]. rewrite Ha in Hl. simpl in Hl. lia. }
  split; [done|]. exists (addressesWithScheme_of g).
  rewrite createFrontendUpdater_aws_static;
    [|done|done|by destruct Hone as [[]|[]]; [left|right]].
  split; [done|]. unfold addressesWithScheme_of.
  destruct Hone as [[Hi Hx]|[Hi Hx]]; by repeat case_decide.
Qed.

Lemma single_static_hostname_accepted_witness :
  dnsProvider aws_static_internal = "aws"
  ∧ r53HostedZone aws_static_internal ≠ ""
  ∧ elbLabelValue aws_static_internal = ""
  ∧ albNames aws_static_internal = []
  ∧ ((internalHostname aws_static_internal ≠ ""
      ∧ externalHostname aws_static_internal = "")
     ∨ (internalHostname aws_static_internal = ""
        ∧ externalHostname aws_static_internal ≠ ""))
  ∧ validateAwsConfig aws_static_internal = ([], Ret tt)
  ∧ ∃ m : gmap string string,
      outcome (createFrontendUpdater calm_world aws_static_internal) =
        Ret (Ok (dns_Updater (r53HostedZone aws_static_internal)
                   (StaticHostnameAdapter m (cnameTimeToLive aws_static_internal))
                   (awsAPIRetries aws_static_internal)))
      ∧ m = (if decide (internalHostname aws_static_internal ≠ "")
             then {["internal" := internalHostname aws_static_internal]}
             else {["internet-facing" := externalHostname aws_static_internal]})
      ∧ (externalHostname aws_static_internal = "" →
         m !! "internet-facing" = None)
      ∧ (internalHostname aws_static_internal = "" → m !! "internal" = None).
Proof.
  assert (H1 : dnsProvider aws_static_internal = "aws") by reflexivity.
  assert (H2 : r53HostedZone aws_static_internal ≠ "")
    by (vm_compute; discriminate).
  assert (H3 : elbLabelValue aws_static_internal = "") by reflexivity.
  assert (H4 : albNames aws_static_internal = []) by reflexivity.
  assert (H5 : (internalHostname aws_static_internal ≠ ""
                ∧ externalHostname aws_static_internal = "")
               ∨ (internalHostname aws_static_internal = ""
                  ∧ externalHostname aws_static_internal ≠ ""))
    by (left; split; [vm_compute; discriminate | reflexivity]).
  split; [exact H1|]. split; [exact H2|]. split; [exact H3|].
  split; [exact H4|]. split; [exact H5|].
  exact (single_static_hostname_accepted calm_world aws_static_internal
           H1 H2 H3 H4 H5).
Defined.

(** ** Static hostnames on the [gcp] branch *)

(** C10. On the [gcp] branch the run of [createFrontendUpdater] (its
    calls and its result) is the same whatever [internalHostname] and
    [externalHostname] hold, and the static adapter is never built. *)
Theorem gcp_ignores_static_hostnames W g i e :
  dnsProvider g = "gcp" →
  createFrontendUpdater W
    (store_string addr_internalHostname i
       (store_string addr_externalHostname e g))
  = createFrontendUpdater W g
  ∧ ∀ m ttl,
      call_NewStaticHostnameAdapter m ttl ∉ trace (createFrontendUpdater W g).
Proof.
  intros Hp. split.
  - rewrite !createFrontendUpdater_gcp by done. reflexivity.
  - intros m ttl (Ha & _)%static_call_inv. rewrite Hp in Ha. discriminate.
Qed.

Lemma gcp_ignores_static_hostnames_witness :
  dnsProvider gcp_static_internal = "gcp"
  ∧ createFrontendUpdater calm_world
      (store_string addr_internalHostname ""
         (store_string addr_externalHostname "lb-public.example.com"
            gcp_static_internal))
    = createFrontendUpdater calm_world gcp_static_internal
  ∧ ∀ m ttl,
      call_NewStaticHostnameAdapter m ttl
        ∉ trace (createFrontendUpdater calm_world gcp_static_internal).
Proof.
  assert (H : dnsProvider gcp_static_internal = "gcp") by reflexivity.
  split; [exact H|].
  exact (gcp_ignores_static_hostnames calm_world gcp_static_internal
           "" "lb-public.example.com" H).
Defined.

(** * Further properties of the start-up code *)

(** ** What [flag.Parse] leaves in the variables *)

Section ReadBack.

Variable W : World.

(** The pattern behind every read-back: a view of the variables that only
    some flags write holds what the last of those flags was given. *)
Lemma Parse_last_among {A} (read : Globals → A) (names : list string)
    (R : string → A → Prop) :
  (∀ name v s g g',
     formal CommandLine !! name = Some v →
     Value_Set W v s g = Some g' →
     if decide (name ∈ names) then R s (read g') else read g' = read g) →
  ∀ f arguments t g,
    formal f = formal CommandLine →
    Parse W f arguments = (t, Ret g) →
    match last_argument_among names arguments with
    | None => read g = read (vars f)
    | Some s => R s (read g)
    end.
Proof.
  intros Hstep f arguments. revert f.
  induction arguments as [|[name value] rest IH]; intros f t g Hf H.
  - by injection H as _ <-.
  - apply Parse_cons_Ret in H as (v & g1 & Hv & Hs & H).
    rewrite Hf in Hv.
    specialize (IH {| formal := formal f; vars := g1 |} t g Hf H).
    simpl in *. destruct (last_argument_among names rest); [done|].
    specialize (Hstep _ _ _ _ _ Hv Hs).
    destruct (decide (name ∈ names)); congruence.
Qed.

Lemma Value_Set_load_string p name v s g g' :
  formal CommandLine !! name = Some v →
  Value_Set W v s g = Some g' →
  if decide (name ∈ flags_bound_to (stringValue p))
  then load_string p g' = s else load_string p g' = load_string p g.
Proof.
  intros H Hs.
  destruct p; registry_cases H; simpl in Hs; simplify_option_eq; reflexivity.
Qed.

Lemma Value_Set_load_int p name v s g g' :
  formal CommandLine !! name = Some v →
  Value_Set W v s g = Some g' →
  if decide (name ∈ flags_bound_to (intValue p))
  then ParseInt W s = Some (load_int p g')
  else load_int p g' = load_int p g.
Proof.
  intros H Hs.
  destruct p; registry_cases H; simpl in Hs; simplify_option_eq; done.
Qed.

Lemma Value_Set_load_duration p name v s g g' :
  formal CommandLine !! name = Some v →
  Value_Set W v s g = Some g' →
  if decide (name ∈ flags_bound_to (durationValue p))
  then ParseDuration W s = Some (load_duration p g')
  else load_duration p g' = load_duration p g.
Proof.
  intros H Hs.
  destruct p; registry_cases H; simpl in Hs; simplify_option_eq; done.
Qed.

End ReadBack.

Lemma last_argument_among_app names l1 l2 :
  last_argument_among names (l1 ++ l2) =
    match last_argument_among names l2 with
    | Some v => Some v
    | None => last_argument_among names l1
    end.
Proof.
  induction l1 as [|[n v] l1 IH]; simpl.
  - by destruct (last_argument_among names l2).
  - rewrite IH. by destruct (last_argument_among names l2).
Qed.

Lemma last_argument_among_None names arguments :
  (∀ n v, (n, v) ∈ arguments → n ∉ names) →
  last_argument_among names arguments = None.
Proof.
  induction arguments as [|[n v] rest IH]; intros H; simpl; [done|].
  rewrite IH by (intros n' v' Hin; eapply H; by right).
  rewrite decide_False; [done|]. eapply H. by left.
Qed.

(** [cdnsHostedZone] after [flag.Parse], from the two flags bound to it. *)
Lemma Parse_cdnsHostedZone W arguments t g :
  Parse W CommandLine arguments = (t, Ret g) →
  cdnsHostedZone g =
    default ""
      (last_argument_among (flags_bound_to (stringValue addr_cdnsHostedZone))
         arguments).
Proof.
  intros H.
  pose proof (Parse_last_among W cdnsHostedZone
                (flags_bound_to (stringValue addr_cdnsHostedZone))
                (λ s x, x = s)
                (Value_Set_load_string W addr_cdnsHostedZone)
                CommandLine arguments t g eq_refl H) as Hl.
  by destruct (last_argument_among _ arguments).
Qed.

(** X1. A string variable holds, after [flag.Parse], the argument of the
    last flag on the command line that [init] bound to it, and its default
    when no such flag was given. *)
Theorem string_flag_last_wins W p arguments t g :
  Parse W CommandLine arguments = (t, Ret g) →
  load_string p g =
    default (load_string p (vars CommandLine))
      (last_argument_among (flags_bound_to (stringValue p)) arguments).
Proof.
  intros H.
  pose proof (Parse_last_among W (load_string p)
                (flags_bound_to (stringValue p)) (λ s x, x = s)
                (Value_Set_load_string W p) CommandLine arguments t g
                eq_refl H) as Hl.
  by destruct (last_argument_among _ arguments).
Qed.

Lemma string_flag_last_wins_witness :
  Parse calm_world CommandLine arguments_aws_elb = ([], Ret parsed_aws_elb)
  ∧ load_string addr_r53HostedZone parsed_aws_elb =
      default (load_string addr_r53HostedZone (vars CommandLine))
        (last_argument_among (flags_bound_to (stringValue addr_r53HostedZone))
           arguments_aws_elb).
Proof.
  assert (H : Parse calm_world CommandLine arguments_aws_elb
              = ([], Ret parsed_aws_elb)) by (vm_compute; reflexivity).
  split; [exact H|].
  exact (string_flag_last_wins calm_world addr_r53HostedZone
           arguments_aws_elb [] parsed_aws_elb H).
Defined.

(** The two flags bound to [cdnsHostedZone], and none to [dnsProvider]. *)
Lemma flags_bound_to_cdnsHostedZone :
  flags_bound_to (stringValue addr_cdnsHostedZone)
  = ["dns-provider"; "cdns-hosted-zone"].
Proof. vm_compute. reflexivity. Qed.

Lemma flags_bound_to_dnsProvider :
  flags_bound_to (stringValue addr_dnsProvider) = [].
Proof. vm_compute. reflexivity. Qed.

(** X2. [-dns-provider] and [-cdns-hosted-zone] share one variable: when
    [-dns-provider] is the later of the two on the command line, the Cloud
    DNS hosted zone is the provider's name, whatever zone was given
    before. *)
Theorem dns_provider_flag_overwrites_hosted_zone
    W before provider after t g :
  Parse W CommandLine (before ++ ("dns-provider", provider) :: after)
    = (t, Ret g) →
  (∀ n v, (n, v) ∈ after → n ≠ "dns-provider" ∧ n ≠ "cdns-hosted-zone") →
  cdnsHostedZone g = provider.
Proof.
  intros H Hafter.
  apply Parse_cdnsHostedZone in H.
  rewrite flags_bound_to_cdnsHostedZone in H.
  rewrite last_argument_among_app in H. cbn [last_argument_among] in H.
  rewrite last_argument_among_None in H.
  - by rewrite decide_True in H by (by left).
  - intros n v Hin Hn. destruct (Hafter n v Hin) as [H1 H2].
    apply elem_of_cons in Hn as [?|Hn]; [done|].
    apply elem_of_cons in Hn as [?|Hn]; [done|]. by apply elem_of_nil in Hn.
Qed.

Lemma dns_provider_flag_overwrites_hosted_zone_witness :
  Parse calm_world CommandLine
      ([("cdns-hosted-zone", "example-zone")]
       ++ ("dns-provider", "gcp")
          :: [("health-port", "8080"); ("alb-names", "alb-a");
              ("alb-names", "alb-b")])
    = ([], Ret parsed_zone_then_provider)
  ∧ (∀ n v, (n, v) ∈ [("health-port", "8080"); ("alb-names", "alb-a");
                       ("alb-names", "alb-b")] →
            n ≠ "dns-provider" ∧ n ≠ "cdns-hosted-zone")
  ∧ cdnsHostedZone parsed_zone_then_provider = "gcp".
Proof.
  assert (H1 : Parse calm_world CommandLine
      ([("cdns-hosted-zone", "example-zone")]
       ++ ("dns-provider", "gcp")
          :: [("health-port", "8080"); ("alb-names", "alb-a");
              ("alb-names", "alb-b")])
    = ([], Ret parsed_zone_then_provider)) by (vm_compute; reflexivity).
  assert (H2 : ∀ n v, (n, v) ∈ [("health-port", "8080"); ("alb-names", "alb-a");
                                ("alb-names", "alb-b")] →
                      n ≠ "dns-provider" ∧ n ≠ "cdns-hosted-zone").
  { intros n v Hin.
    repeat (apply elem_of_cons in Hin as [Hin|Hin];
            [injection Hin as -> ->; split; discriminate|]).
    by apply elem_of_nil in Hin. }
  split; [exact H1|]. split; [exact H2|].
  exact (dns_provider_flag_overwrites_hosted_zone calm_world _ _ _ _ _ H1 H2).
Defined.

(** X3. An integer or duration variable holds, after [flag.Parse], what
    the last argument of its flag parses to, and the default of [init] when
    the flag was not given. *)
Theorem numeric_flag_last_wins W arguments t g :
  Parse W CommandLine arguments = (t, Ret g) →
  (∀ p, match last_argument_among (flags_bound_to (intValue p)) arguments with
        | None => load_int p g = load_int p (vars CommandLine)
        | Some s => ParseInt W s = Some (load_int p g)
        end)
  ∧ (∀ p, match last_argument_among (flags_bound_to (durationValue p))
                  arguments with
          | None => load_duration p g = load_duration p (vars CommandLine)
          | Some s => ParseDuration W s = Some (load_duration p g)
          end).
Proof.
  intros H. split; intros p.
  - exact (Parse_last_among W (load_int p) (flags_bound_to (intValue p))
             (λ s x, ParseInt W s = Some x) (Value_Set_load_int W p)
             CommandLine arguments t g eq_refl H).
  - exact (Parse_last_among W (load_duration p)
             (flags_bound_to (durationValue p))
             (λ s x, ParseDuration W s = Some x) (Value_Set_load_duration W p)
             CommandLine arguments t g eq_refl H).
Qed.

Lemma numeric_flag_last_wins_witness :
  Parse calm_world CommandLine arguments_zone_then_provider
    = ([], Ret parsed_zone_then_provider)
  ∧ (∀ p, match last_argument_among (flags_bound_to (intValue p))
                  arguments_zone_then_provider with
          | None => load_int p parsed_zone_then_provider
                    = load_int p (vars CommandLine)
          | Some s => ParseInt calm_world s
                      = Some (load_int p parsed_zone_then_provider)
          end)
  ∧ (∀ p, match last_argument_among (flags_bound_to (durationValue p))
                  arguments_zone_then_provider with
          | None => load_duration p parsed_zone_then_provider
                    = load_duration p (vars CommandLine)
          | Some s => ParseDuration calm_world s
                      = Some (load_duration p parsed_zone_then_provider)
          end).
Proof.
  assert (H : Parse calm_world CommandLine arguments_zone_then_provider
              = ([], Ret parsed_zone_then_provider))
    by (vm_compute; reflexivity).
  split; [exact H|].
  exact (numeric_flag_last_wins calm_world arguments_zone_then_provider []
           parsed_zone_then_provider H).
Defined.

(** ** Flags given more than once *)

Section Repeated.

Variable W : World.

Lemma Value_Set_albNames name v s g g' :
  formal CommandLine !! name = Some v →
  Value_Set W v s g = Some g' →
  if decide (name = "alb-names")
  then CommaSeparatedValues_Set W (albNames g) s = Some (albNames g')
  else albNames g' = albNames g.
Proof.
  intros H Hs. registry_cases H; simpl in Hs; simplify_option_eq; done.
Qed.

Lemma Value_Set_pushgatewayLabels name v s g g' :
  formal CommandLine !! name = Some v →
  Value_Set W v s g = Some g' →
  if decide (name = "pushgateway-label")
  then KeyValues_Set W (pushgatewayLabels g) s = Some (pushgatewayLabels g')
  else pushgatewayLabels g' = pushgatewayLabels g.
Proof.
  intros H Hs. registry_cases H; simpl in Hs; simplify_option_eq; done.
Qed.

(** A view written through a [Set] method by one flag only is that method
    run over the flag's arguments, in order. *)
Lemma Parse_Set_each {A} (read : Globals → A) (flag : string)
    (set : A → string → option A) :
  (∀ name v s g g',
     formal CommandLine !! name = Some v →
     Value_Set W v s g = Some g' →
     if decide (name = flag) then set (read g) s = Some (read g')
     else read g' = read g) →
  ∀ f arguments t g,
    formal f = formal CommandLine →
    Parse W f arguments = (t, Ret g) →
    Set_each set (read (vars f)) (arguments_of flag arguments) = Some (read g).
Proof.
  intros Hstep f arguments. revert f.
  induction arguments as [|[name value] rest IH]; intros f t g Hf H.
  - by injection H as _ <-.
  - apply Parse_cons_Ret in H as (v & g1 & Hv & Hs & H).
    rewrite Hf in Hv.
    specialize (IH {| formal := formal f; vars := g1 |} t g Hf H).
    specialize (Hstep _ _ _ _ _ Hv Hs). unfold arguments_of in *.
    rewrite filter_cons. cbn [fst]. simpl in IH.
    destruct (decide (name = flag)) as [->|Hne].
    + cbn [fmap list_fmap snd Set_each]. rewrite Hstep. exact IH.
    + rewrite <- Hstep. exact IH.
Qed.

End Repeated.

(** X4. [alb-names] and [pushgateway-label] may be given several times:
    after [flag.Parse] the variable holds what the [Set] method of its type
    yields when called once per occurrence, in command-line order, starting
    from the empty value. *)
Theorem repeated_flags_call_Set_in_order W arguments t g :
  Parse W CommandLine arguments = (t, Ret g) →
  Set_each (CommaSeparatedValues_Set W) []
    (arguments_of "alb-names" arguments) = Some (albNames g)
  ∧ Set_each (KeyValues_Set W) []
      (arguments_of "pushgateway-label" arguments) = Some (pushgatewayLabels g).
Proof.
  intros H. split.
  - exact (Parse_Set_each W albNames "alb-names" (CommaSeparatedValues_Set W)
             (Value_Set_albNames W) CommandLine arguments t g eq_refl H).
  - exact (Parse_Set_each W pushgatewayLabels "pushgateway-label"
             (KeyValues_Set W) (Value_Set_pushgatewayLabels W)
             CommandLine arguments t g eq_refl H).
Qed.

Lemma repeated_flags_call_Set_in_order_witness :
  Parse calm_world CommandLine arguments_zone_then_provider
    = ([], Ret parsed_zone_then_provider)
  ∧ Set_each (CommaSeparatedValues_Set calm_world) []
      (arguments_of "alb-names" arguments_zone_then_provider)
    = Some (albNames parsed_zone_then_provider)
  ∧ Set_each (KeyValues_Set calm_world) []
      (arguments_of "pushgateway-label" arguments_zone_then_provider)
    = Some (pushgatewayLabels parsed_zone_then_provider).
Proof.
  assert (H : Parse calm_world CommandLine arguments_zone_then_provider
              = ([], Ret parsed_zone_then_provider))
    by (vm_compute; reflexivity).
  split; [exact H|].
  exact (repeated_flags_call_Set_in_order calm_world
           arguments_zone_then_provider [] parsed_zone_then_provider H).
Defined.

(** ** Command lines that [flag.Parse] rejects *)

Section Rejected.

Variable W : World.

(** [flag.Parse] returns or ends the process; it calls nothing. *)
Lemma Parse_ends f arguments :
  (∃ g, Parse W f arguments = ([], Ret g))
  ∨ (∃ e, Parse W f arguments = ([], Stop e)).
Proof.
  revert f. induction arguments as [|[name value] rest IH]; intros f; simpl.
  - left. by eexists.
  - destruct (formal f !! name) as [v|]; [|right; by eexists].
    destruct (Value_Set W v value (vars f)); [apply IH | right; by eexists].
Qed.

(** When it returns, every argument named a registered flag and was
    accepted by the [Set] method of that flag's value. *)
Lemma Parse_Ret_each f arguments t g n s :
  formal f = formal CommandLine →
  Parse W f arguments = (t, Ret g) →
  (n, s) ∈ arguments →
  ∃ v g0 g1, formal CommandLine !! n = Some v
             ∧ Value_Set W v s g0 = Some g1.
Proof.
  revert f. induction arguments as [|[name value] rest IH]; intros f Hf H Hin.
  - by apply elem_of_nil in Hin.
  - apply Parse_cons_Ret in H as (v & g1 & Hv & Hs & H). rewrite Hf in Hv.
    apply elem_of_cons in Hin as [Hin|Hin].
    + injection Hin as -> ->. by exists v, (vars f), g1.
    + exact (IH {| formal := formal f; vars := g1 |} Hf H Hin).
Qed.

Lemma main_Parse_Stop f arguments e :
  Parse W f arguments = ([], Stop e) → main W f arguments = ([], Stop e).
Proof. intros H. unfold main. by rewrite H. Qed.

End Rejected.

Lemma flag_names_registered (name : string) :
  name ∈ flag_names ↔ is_Some (formal CommandLine !! name).
Proof.
  unfold flag_names. rewrite formal_CommandLine. split.
  - intros ([n v] & -> & Hin)%list_elem_of_fmap.
    apply (elem_of_list_to_map_1 (M := gmap string)) in Hin; [by eexists|].
    vm_compute. by apply (bool_decide_unpack _).
  - intros [v Hv%elem_of_list_to_map_2]. apply list_elem_of_fmap.
    by exists (name, v).
Qed.

(** X5. A flag name that [init] did not register, anywhere on the command
    line, ends the process in [flag.Parse]: [main] makes no outside call. *)
Theorem unknown_flag_ends_process W arguments n s :
  (n, s) ∈ arguments →
  n ∉ flag_names →
  ∃ e, main W CommandLine arguments = ([], Stop e).
Proof.
  intros Hin Hn.
  destruct (Parse_ends W CommandLine arguments) as [[g H]|[e H]].
  - destruct (Parse_Ret_each W _ _ _ _ _ _ eq_refl H Hin) as (v & _ & _ & Hv & _).
    destruct Hn. apply flag_names_registered. by eexists.
  - exists e. by apply main_Parse_Stop.
Qed.

Lemma unknown_flag_ends_process_witness :
  ("region", "eu-west-1") ∈ arguments_unknown_flag
  ∧ ("region" ∉ flag_names)
  ∧ ∃ e, main calm_world CommandLine arguments_unknown_flag = ([], Stop e).
Proof.
  assert (H1 : ("region", "eu-west-1") ∈ arguments_unknown_flag)
    by (apply list_elem_of_further, list_elem_of_here).
  assert (H2 : "region" ∉ flag_names)
    by (apply (bool_decide_unpack _); vm_compute; exact I).
  split; [exact H1|]. split; [exact H2|].
  exact (unknown_flag_ends_process calm_world arguments_unknown_flag
           "region" "eu-west-1" H1 H2).
Defined.

(** X6. An argument that its flag's type cannot parse (a boolean, an
    integer or a duration), anywhere on the command line, ends the process in
    [flag.Parse]: [main] makes no outside call. *)
Theorem unparsable_argument_ends_process W arguments n s v :
  (n, s) ∈ arguments →
  formal CommandLine !! n = Some v →
  match v with
  | boolValue _ => ParseBool W s = None
  | intValue _ => ParseInt W s = None
  | durationValue _ => ParseDuration W s = None
  | _ => False
  end →
  ∃ e, main W CommandLine arguments = ([], Stop e).
Proof.
  intros Hin Hv Hbad.
  destruct (Parse_ends W CommandLine arguments) as [[g H]|[e H]].
  - destruct (Parse_Ret_each W _ _ _ _ _ _ eq_refl H Hin)
      as (v' & g0 & g1 & Hv' & Hs).
    rewrite Hv in Hv'. injection Hv' as <-.
    destruct v; try done; simpl in Hs; rewrite Hbad in Hs; discriminate.
  - exists e. by apply main_Parse_Stop.
Qed.

Lemma unparsable_argument_ends_process_witness :
  ("health-port", "http") ∈ arguments_bad_port
  ∧ formal CommandLine !! "health-port" = Some (intValue addr_healthPort)
  ∧ ParseInt calm_world "http" = None
  ∧ ∃ e, main calm_world CommandLine arguments_bad_port = ([], Stop e).
Proof.
  assert (H1 : ("health-port", "http") ∈ arguments_bad_port)
    by apply list_elem_of_here.
  assert (H2 : formal CommandLine !! "health-port"
               = Some (intValue addr_healthPort)) by (vm_compute; reflexivity).
  assert (H3 : ParseInt calm_world "http" = None) by (vm_compute; reflexivity).
  split; [exact H1|]. split; [exact H2|]. split; [exact H3|].
  exact (unparsable_argument_ends_process calm_world arguments_bad_port
           "health-port" "http" (intValue addr_healthPort) H1 H2 H3).
Defined.

(** ** When the checks pass and when an updater is returned *)

Lemma static_configured_dec_cases g :
  internalHostname g = "" ∧ externalHostname g = "" ↔ ¬ static_configured g.
Proof.
  unfold static_configured.
  destruct (decide (internalHostname g = "")),
    (decide (externalHostname g = "")); intuition.
Qed.

Lemma discovery_configured_cases g :
  elbLabelValue g ≠ "" ∨ (0 < length (albNames g))%nat
  ↔ discovery_configured g.
Proof. unfold discovery_configured. by rewrite length_pos_nonnil. Qed.

Lemma not_discovery_configured g :
  elbLabelValue g = "" ∧ length (albNames g) = 0%nat
  ↔ ¬ discovery_configured g.
Proof.
  unfold discovery_configured. rewrite length_zero_nil.
  destruct (decide (elbLabelValue g = "")), (decide (albNames g = []));
    intuition.
Qed.

(** What a passed validation says about the variables. *)
Lemma validateAwsConfig_Ret_inv g :
  validateAwsConfig g = ([], Ret tt) →
  r53HostedZone g ≠ ""
  ∧ ((static_configured g ∧ ¬ discovery_configured g)
     ∨ (¬ static_configured g ∧ discovery_configured g)).
Proof.
  rewrite validateAwsConfig_cases.
  rewrite <- static_configured_dec_cases, <- not_discovery_configured.
  rewrite <- discovery_configured_cases. unfold static_configured.
  repeat case_decide; try discriminate; intros _; split; try done;
    destruct (decide (internalHostname g = "")),
      (decide (externalHostname g = "")),
      (decide (elbLabelValue g = "")),
      (decide (length (albNames g) = 0%nat)); intuition lia.
Qed.

(** X7. [validateAwsConfig] returns exactly when a hosted zone is given
    together with one kind of source: static hostnames or load-balancer
    discovery, not both and not neither. In every other case it ends the
    process. *)
Theorem validateAwsConfig_passes_iff g :
  validateAwsConfig g = ([], Ret tt)
  ↔ r53HostedZone g ≠ ""
    ∧ ((static_configured g ∧ ¬ discovery_configured g)
       ∨ (¬ static_configured g ∧ discovery_configured g)).
Proof.
  rewrite validateAwsConfig_cases.
  rewrite <- static_configured_dec_cases, <- not_discovery_configured.
  rewrite <- discovery_configured_cases. unfold static_configured.
  destruct (decide (r53HostedZone g = "")) as [Hz|Hz];
    [split; [discriminate | by intros [? _]]|].
  destruct (decide (internalHostname g = "")) as [Hi|Hi],
    (decide (externalHostname g = "")) as [Hx|Hx],
    (decide (elbLabelValue g = "")) as [He|He],
    (decide (length (albNames g) = 0%nat)) as [Ha|Ha];
    repeat case_decide; split; try discriminate; try lia; intuition lia.
Qed.

Section Success.

Variable W : World.

(** X8. When [createFrontendUpdater] ends the process it has called
    nothing outside: validation comes before every constructor, and the line
    logged is one of the validator of the branch taken. *)
Theorem fatal_exit_precedes_every_call g e :
  outcome (createFrontendUpdater W g) = Stop e →
  trace (createFrontendUpdater W g) = []
  ∧ ((dnsProvider g = "aws"
      ∧ (e = LogFatal line_no_hosted_zone ∨ e = LogFatal line_no_source
         ∨ e = LogFatal line_both_sources))
     ∨ (dnsProvider g = "gcp"
        ∧ (e = LogFatal line_no_prefix ∨ e = LogFatal line_no_cdns_zone))).
Proof.
  destruct (decide (dnsProvider g = "aws")) as [Ha|Ha].
  - destruct (validateAwsConfig_outcome g) as [Hv|[line Hv]].
    + destruct (decide (static_configured g)) as [Hs|Hs].
      * by rewrite createFrontendUpdater_aws_static.
      * rewrite createFrontendUpdater_aws_discovery by done. cbv zeta.
        by destruct (NewAWSAdapter_err W _).
    + rewrite (createFrontendUpdater_aws_fatal W g _ Ha Hv).
      cbn [outcome trace fst snd]. intros He. injection He as <-.
      split; [done|]. left.
      split; [done|]. rewrite validateAwsConfig_cases in Hv.
      repeat case_decide; simplify_eq; auto.
  - destruct (decide (dnsProvider g = "gcp")) as [Hg|Hg].
    + rewrite createFrontendUpdater_gcp by done. cbv zeta.
      rewrite validateCdnsConfig_cases. repeat case_decide.
      * cbn [outcome trace fst snd]. intros He. injection He as <-. auto.
      * cbn [outcome trace fst snd]. intros He. injection He as <-. auto.
      * by destruct (cdns_NewAdapter_err W _).
    + by rewrite createFrontendUpdater_default.
Qed.

(** X9. [createFrontendUpdater] returns an updater in exactly two
    situations: on the [aws] branch when validation passes and, if no static
    hostname is set, the AWS adapter could be built; on the [gcp] branch when
    prefix and zone are given and both Cloud DNS constructors succeed. *)
Theorem updater_returned_iff g :
  (∃ u, outcome (createFrontendUpdater W g) = Ret (Ok u))
  ↔ (dnsProvider g = "aws"
     ∧ validateAwsConfig g = ([], Ret tt)
     ∧ (static_configured g
        ∨ NewAWSAdapter_err W
            {| Region := elbRegion g; HostedZoneID := r53HostedZone g;
               ELBLabelValue := elbLabelValue g; ALBNames := albNames g |}
          = None))
    ∨ (dnsProvider g = "gcp"
       ∧ cdnsInstanceGroupPrefix g ≠ "" ∧ cdnsHostedZone g ≠ ""
       ∧ cdns_NewAdapter_err W
           {| InstanceGroupPrefix := cdnsInstanceGroupPrefix g;
              HostedZone := cdnsHostedZone g |} = None
       ∧ cdns_NewUpdater_err W
           {| InstanceGroupPrefix := cdnsInstanceGroupPrefix g;
              HostedZone := cdnsHostedZone g |} = None).
Proof.
  destruct (decide (dnsProvider g = "aws")) as [Ha|Ha].
  - assert (dnsProvider g ≠ "gcp") as Hg by (rewrite Ha; discriminate).
    destruct (validateAwsConfig_outcome g) as [Hv|[line Hv]].
    + destruct (decide (static_configured g)) as [Hs|Hs].
      * rewrite createFrontendUpdater_aws_static by done.
        cbn [outcome snd]. split; [intros _; left; auto | by eexists].
      * rewrite createFrontendUpdater_aws_discovery by done. cbv zeta.
        destruct (NewAWSAdapter_err W _) eqn:He; cbn [outcome snd].
        -- split; [by intros [u ?]|]. intros [(_ & _ & [?|?])|[? _]]; done.
        -- split; [intros _; left; auto | by eexists].
    + rewrite (createFrontendUpdater_aws_fatal W g _ Ha Hv). rewrite Hv.
      cbn [outcome snd]. split; [by intros [u ?]|].
      intros [(_ & ? & _)|[? _]]; done.
  - destruct (decide (dnsProvider g = "gcp")) as [Hg|Hg].
    + rewrite createFrontendUpdater_gcp by done. cbv zeta.
      rewrite validateCdnsConfig_cases.
      destruct (decide (cdnsInstanceGroupPrefix g = "")) as [Hp|Hp];
        [split; [by intros [u ?] | intros [[? _]|(_ & ? & _)]; done]|].
      destruct (decide (cdnsHostedZone g = "")) as [Hz|Hz];
        [split; [by intros [u ?] | intros [[? _]|(_ & _ & ? & _)]; done]|].
      destruct (cdns_NewAdapter_err W _) eqn:He;
        [split; [by intros [u ?] | intros [[? _]|(_ & _ & _ & ? & _)]; done]|].
      destruct (cdns_NewUpdater_err W _) eqn:Hu; cbn [outcome snd].
      * split; [by intros [u ?] | intros [[? _]|(_ & _ & _ & _ & ?)]; done].
      * split; [intros _; right; auto | by eexists].
    + rewrite createFrontendUpdater_default by done. cbn [outcome snd].
      split; [by intros [u ?] | intros [[? _]|[? _]]; done].
Qed.

End Success.

Lemma fatal_exit_precedes_every_call_witness :
  outcome (createFrontendUpdater calm_world aws_no_zone)
    = Stop (LogFatal line_no_hosted_zone)
  ∧ trace (createFrontendUpdater calm_world aws_no_zone) = []
  ∧ ((dnsProvider aws_no_zone = "aws"
      ∧ (LogFatal line_no_hosted_zone = LogFatal line_no_hosted_zone
         ∨ LogFatal line_no_hosted_zone = LogFatal line_no_source
         ∨ LogFatal line_no_hosted_zone = LogFatal line_both_sources))
     ∨ (dnsProvider aws_no_zone = "gcp"
        ∧ (LogFatal line_no_hosted_zone = LogFatal line_no_prefix
           ∨ LogFatal line_no_hosted_zone = LogFatal line_no_cdns_zone))).
Proof.
  assert (H : outcome (createFrontendUpdater calm_world aws_no_zone)
              = Stop (LogFatal line_no_hosted_zone))
    by (vm_compute; reflexivity).
  split; [exact H|].
  exact (fatal_exit_precedes_every_call calm_world aws_no_zone _ H).
Defined.

(** ** What the calls of [createFrontendUpdater] were given *)

Section Calls.

Variable W : World.

(** X10. When [createFrontendUpdater] returns an error, [dns.New] was
    not called, and the error is one of three. Outside [aws] and [gcp]: the
    invalid-provider error naming the provider, with nothing called. On the
    [aws] branch: the error [NewAWSAdapter] returned on the configuration of
    the variables, wrapped in that branch's message. On the [gcp] branch:
    the error [cdns.NewAdapter] returned, wrapped in that branch's message,
    or, when that constructor succeeded, the error [cdns.NewUpdater]
    returned, as it came. *)
Theorem error_result_shapes g err :
  outcome (createFrontendUpdater W g) = Ret (Err err) →
  (∀ z a n, call_dns_New z a n ∉ trace (createFrontendUpdater W g))
  ∧ ((dnsProvider g ≠ "aws" ∧ dnsProvider g ≠ "gcp"
      ∧ trace (createFrontendUpdater W g) = []
      ∧ err = Errorf
                "invalid dns-provider %q. Must specify a valid value: aws, gcp"
                [argString (dnsProvider g)])
     ∨ (dnsProvider g = "aws"
        ∧ ∃ e, NewAWSAdapter_err W (aws_config_of g) = Some e
               ∧ err = Errorf "unable to create aws adapater: %v"
                         [argError (extErr e)])
     ∨ (dnsProvider g = "gcp"
        ∧ ∃ e, (cdns_NewAdapter_err W (cdns_config_of g) = Some e
                ∧ err = Errorf "unable to create gcp adapater: %v"
                          [argError (extErr e)])
               ∨ (cdns_NewAdapter_err W (cdns_config_of g) = None
                  ∧ cdns_NewUpdater_err W (cdns_config_of g) = Some e
                  ∧ err = extErr e))).
Proof.
  unfold aws_config_of, cdns_config_of.
  destruct (decide (dnsProvider g = "aws")) as [Ha|Ha].
  - destruct (validateAwsConfig_outcome g) as [Hv|[line Hv]].
    + destruct (decide (static_configured g)) as [Hs|Hs].
      * by rewrite createFrontendUpdater_aws_static.
      * rewrite createFrontendUpdater_aws_discovery by done. cbv zeta.
        destruct (NewAWSAdapter_err W _) as [e|] eqn:He;
          cbn [outcome trace fst snd]; intros Herr; [|discriminate].
        injection Herr as <-. split.
        -- intros z a k Hin.
           apply elem_of_cons in Hin as [Hin|Hin]; [discriminate|].
           by apply elem_of_nil in Hin.
        -- right; left. split; [done|]. by exists e.
    + by rewrite (createFrontendUpdater_aws_fatal W g _ Ha Hv).
  - destruct (decide (dnsProvider g = "gcp")) as [Hg|Hg].
    + rewrite createFrontendUpdater_gcp by done. cbv zeta.
      rewrite validateCdnsConfig_cases.
      destruct (decide (cdnsInstanceGroupPrefix g = "")) as [Hp|Hp]; [done|].
      destruct (decide (cdnsHostedZone g = "")) as [Hz|Hz]; [done|].
      destruct (cdns_NewAdapter_err W _) as [e|] eqn:He;
        cbn [outcome trace fst snd].
      * intros Herr. injection Herr as <-. split.
        -- intros z a k Hin.
           apply elem_of_cons in Hin as [Hin|Hin]; [discriminate|].
           by apply elem_of_nil in Hin.
        -- right; right. split; [done|]. exists e. by left.
      * destruct (cdns_NewUpdater_err W _) as [e|] eqn:Hu;
          intros Herr; [|discriminate].
        injection Herr as <-. split.
        -- intros z a k Hin.
           repeat (apply elem_of_cons in Hin as [Hin|Hin]; [discriminate|]).
           by apply elem_of_nil in Hin.
        -- right; right. split; [done|]. exists e. by right.
    + rewrite createFrontendUpdater_default by done.
      cbn [outcome trace fst snd]. intros Herr. injection Herr as <-.
      split; [|by left]. intros z a k Hin. by apply elem_of_nil in Hin.
Qed.

(** X11. [NewAWSAdapter] is called on the [aws] branch only, after
    validation: with a hosted zone, a discovery source and no static
    hostname; and its configuration is the region, zone, label value and ALB
    names of the variables. *)
Theorem NewAWSAdapter_call_inv g config :
  call_NewAWSAdapter config ∈ trace (createFrontendUpdater W g) →
  dnsProvider g = "aws"
  ∧ r53HostedZone g ≠ ""
  ∧ ¬ static_configured g
  ∧ discovery_configured g
  ∧ config = {| Region := elbRegion g; HostedZoneID := r53HostedZone g;
                ELBLabelValue := elbLabelValue g; ALBNames := albNames g |}.
Proof.
  destruct (decide (dnsProvider g = "aws")) as [Ha|Ha].
  - destruct (validateAwsConfig_outcome g) as [Hv|[line Hv]].
    + destruct (decide (static_configured g)) as [Hs|Hs].
      * rewrite createFrontendUpdater_aws_static by done.
        cbn [trace fst]. intros Hin.
        repeat (apply elem_of_cons in Hin as [Hin|Hin]; [discriminate|]).
        by apply elem_of_nil in Hin.
      * rewrite createFrontendUpdater_aws_discovery by done. cbv zeta.
        apply validateAwsConfig_Ret_inv in Hv as [Hz [[? _]|[_ Hd]]]; [done|].
        intros Hin.
        assert (config = {| Region := elbRegion g;
                            HostedZoneID := r53HostedZone g;
                            ELBLabelValue := elbLabelValue g;
                            ALBNames := albNames g |}) as ->; [|done].
        destruct (NewAWSAdapter_err W _); cbn [trace fst] in Hin;
          apply elem_of_cons in Hin as [Hin|Hin]; try (by injection Hin);
          repeat (apply elem_of_cons in Hin as [Hin|Hin]; [discriminate|]);
          by apply elem_of_nil in Hin.
    + rewrite (createFrontendUpdater_aws_fatal W g _ Ha Hv).
      intros Hin. by apply elem_of_nil in Hin.
  - destruct (createFrontendUpdater_run W g); cbn [trace fst]; intros Hin;
      try done;
      repeat (apply elem_of_cons in Hin as [Hin|Hin]; [discriminate|]);
      by apply elem_of_nil in Hin.
Qed.

(** X12. [cdns.NewUpdater] is called on the [gcp] branch only, with a
    prefix and a zone that are not empty, and only after [cdns.NewAdapter]
    succeeded on the very same configuration. *)
Theorem cdns_NewUpdater_call_inv g config :
  call_cdns_NewUpdater config ∈ trace (createFrontendUpdater W g) →
  dnsProvider g = "gcp"
  ∧ cdnsInstanceGroupPrefix g ≠ "" ∧ cdnsHostedZone g ≠ ""
  ∧ config = {| InstanceGroupPrefix := cdnsInstanceGroupPrefix g;
                HostedZone := cdnsHostedZone g |}
  ∧ cdns_NewAdapter_err W config = None
  ∧ trace (createFrontendUpdater W g)
    = [call_cdns_NewAdapter config; call_cdns_NewUpdater config].
Proof.
  destruct (decide (dnsProvider g = "gcp")) as [Hg|Hg].
  - rewrite createFrontendUpdater_gcp by done. cbv zeta.
    rewrite validateCdnsConfig_cases.
    destruct (decide (cdnsInstanceGroupPrefix g = "")) as [Hp|Hp];
      [intros Hin; by apply elem_of_nil in Hin|].
    destruct (decide (cdnsHostedZone g = "")) as [Hz|Hz];
      [intros Hin; by apply elem_of_nil in Hin|].
    destruct (cdns_NewAdapter_err W _) eqn:He; cbn [trace fst]; intros Hin;
      apply elem_of_cons in Hin as [Hin|Hin]; try discriminate.
    + by apply elem_of_nil in Hin.
    + apply elem_of_cons in Hin as [Hin|Hin];
        [|by apply elem_of_nil in Hin].
      injection Hin as ->. done.
  - destruct (createFrontendUpdater_run W g); cbn [trace fst]; intros Hin;
      try done;
      repeat (apply elem_of_cons in Hin as [Hin|Hin]; [discriminate|]);
      by apply elem_of_nil in Hin.
Qed.

(** X13. With a static hostname set, the [aws] branch does not look at
    [elb-region]: the run is the same for every region, and the AWS adapter
    is never built. *)
Theorem static_hostname_ignores_region g region :
  dnsProvider g = "aws" →
  static_configured g →
  createFrontendUpdater W (store_string addr_elbRegion region g)
  = createFrontendUpdater W g
  ∧ ∀ config, call_NewAWSAdapter config ∉ trace (createFrontendUpdater W g).
Proof.
  intros Ha Hs. split.
  - destruct (validateAwsConfig_outcome g) as [Hv|[line Hv]].
    + rewrite (createFrontendUpdater_aws_static W g Ha Hv Hs).
      by rewrite (createFrontendUpdater_aws_static W
                    (store_string addr_elbRegion region g) Ha Hv Hs).
    + rewrite (createFrontendUpdater_aws_fatal W g _ Ha Hv).
      by rewrite (createFrontendUpdater_aws_fatal W
                    (store_string addr_elbRegion region g) _ Ha Hv).
  - intros config Hin.
    destruct (createFrontendUpdater_run W g); cbn [trace fst] in Hin;
      try done;
      repeat (apply elem_of_cons in Hin as [Hin|Hin]; [discriminate|]);
      by apply elem_of_nil in Hin.
Qed.

End Calls.

Lemma error_result_shapes_witness :
  outcome (createFrontendUpdater no_aws_world aws_elb)
    = Ret (Err err_no_credentials)
  ∧ (∀ z a n,
       call_dns_New z a n ∉ trace (createFrontendUpdater no_aws_world aws_elb))
  ∧ ((dnsProvider aws_elb ≠ "aws" ∧ dnsProvider aws_elb ≠ "gcp"
      ∧ trace (createFrontendUpdater no_aws_world aws_elb) = []
      ∧ err_no_credentials
        = Errorf
            "invalid dns-provider %q. Must specify a valid value: aws, gcp"
            [argString (dnsProvider aws_elb)])
     ∨ (dnsProvider aws_elb = "aws"
        ∧ ∃ e, NewAWSAdapter_err no_aws_world (aws_config_of aws_elb) = Some e
               ∧ err_no_credentials
                 = Errorf "unable to create aws adapater: %v"
                     [argError (extErr e)])
     ∨ (dnsProvider aws_elb = "gcp"
        ∧ ∃ e, (cdns_NewAdapter_err no_aws_world (cdns_config_of aws_elb)
                = Some e
                ∧ err_no_credentials
                  = Errorf "unable to create gcp adapater: %v"
                      [argError (extErr e)])
               ∨ (cdns_NewAdapter_err no_aws_world (cdns_config_of aws_elb)
                  = None
                  ∧ cdns_NewUpdater_err no_aws_world (cdns_config_of aws_elb)
                    = Some e
                  ∧ err_no_credentials = extErr e))).
Proof.
  assert (H : outcome (createFrontendUpdater no_aws_world aws_elb)
              = Ret (Err err_no_credentials)) by (vm_compute; reflexivity).
  split; [exact H|].
  exact (error_result_shapes no_aws_world aws_elb err_no_credentials H).
Defined.

Lemma NewAWSAdapter_call_inv_witness :
  call_NewAWSAdapter aws_elb_config
    ∈ trace (createFrontendUpdater calm_world aws_elb)
  ∧ dnsProvider aws_elb = "aws"
  ∧ r53HostedZone aws_elb ≠ ""
  ∧ ¬ static_configured aws_elb
  ∧ discovery_configured aws_elb
  ∧ aws_elb_config
    = {| Region := elbRegion aws_elb; HostedZoneID := r53HostedZone aws_elb;
         ELBLabelValue := elbLabelValue aws_elb;
         ALBNames := albNames aws_elb |}.
Proof.
  assert (H : call_NewAWSAdapter aws_elb_config
              ∈ trace (createFrontendUpdater calm_world aws_elb))
    by (vm_compute; apply list_elem_of_here).
  split; [exact H|].
  exact (NewAWSAdapter_call_inv calm_world aws_elb aws_elb_config H).
Defined.

Lemma cdns_NewUpdater_call_inv_witness :
  call_cdns_NewUpdater gcp_config
    ∈ trace (createFrontendUpdater calm_world gcp_static_internal)
  ∧ dnsProvider gcp_static_internal = "gcp"
  ∧ cdnsInstanceGroupPrefix gcp_static_internal ≠ ""
  ∧ cdnsHostedZone gcp_static_internal ≠ ""
  ∧ gcp_config
    = {| InstanceGroupPrefix := cdnsInstanceGroupPrefix gcp_static_internal;
         HostedZone := cdnsHostedZone gcp_static_internal |}
  ∧ cdns_NewAdapter_err calm_world gcp_config = None
  ∧ trace (createFrontendUpdater calm_world gcp_static_internal)
    = [call_cdns_NewAdapter gcp_config; call_cdns_NewUpdater gcp_config].
Proof.
  assert (H : call_cdns_NewUpdater gcp_config
              ∈ trace (createFrontendUpdater calm_world gcp_static_internal))
    by (vm_compute; apply list_elem_of_further, list_elem_of_here).
  split; [exact H|].
  exact (cdns_NewUpdater_call_inv calm_world gcp_static_internal gcp_config H).
Defined.

Lemma static_hostname_ignores_region_witness :
  dnsProvider aws_static_internal = "aws"
  ∧ static_configured aws_static_internal
  ∧ createFrontendUpdater calm_world
      (store_string addr_elbRegion "us-east-1" aws_static_internal)
    = createFrontendUpdater calm_world aws_static_internal
  ∧ ∀ config,
      call_NewAWSAdapter config
        ∉ trace (createFrontendUpdater calm_world aws_static_internal).
Proof.
  assert (H1 : dnsProvider aws_static_internal = "aws") by reflexivity.
  assert (H2 : static_configured aws_static_internal)
    by (left; vm_compute; discriminate).
  split; [exact H1|]. split; [exact H2|].
  exact (static_hostname_ignores_region calm_world aws_static_internal
           "us-east-1" H1 H2).
Defined.

(** ** The order of [main] *)

Section MainOrder.

Variable W : World.

(** [main] after the flags, case by case: the client, then the updater,
    then the controller. *)
Lemma main_after_Parse_cases g :
  main_after_Parse W g =
    match k8s_New_err W (kubeconfig g) (resyncPeriod g) with
    | Some e =>
        (calls_before_updater g,
         Stop (LogFatal (Fatalf_line "Unable to create k8s client: %v"
                           [argError (extErr e)])))
    | None =>
        match createFrontendUpdater W g with
        | (tc, Ret (Ok u)) =>
            (calls_before_updater g ++ tc ++ calls_after_updater g u,
             match controller_Start_err W with
             | Some e =>
                 Stop (LogFatal (Fatal_line
                   [argString "Error while starting controller: ";
                    argError (extErr e)]))
             | None => Blocked
             end)
        | (tc, Ret (Err err)) =>
            (calls_before_updater g ++ tc,
             Stop (LogFatal (Fatalf_line "Unable to create dns updater: %v"
                               [argError err])))
        | (tc, Stop e) => (calls_before_updater g ++ tc, Stop e)
        | (tc, Blocked) => (calls_before_updater g ++ tc, Blocked)
        end
    end%list.
Proof.
  unfold main_after_Parse, cmd_ConfigureLogging, cmd_ConfigureMetrics,
    k8s_New, controller_New, cmd_AddHealthMetrics, cmd_AddHealthPort,
    cmd_AddSignalHandler, controller_Start, select_forever,
    calls_before_updater, calls_after_updater.
  run. destruct (k8s_New_err W _ _) as [e|]; [reflexivity|].
  destruct (createFrontendUpdater W g) as [tc [[u|err]|e|]];
    run; rewrite ?app_nil_r; try reflexivity.
  by destruct (controller_Start_err W).
Qed.

End MainOrder.

Lemma main_Parse_Ret W f arguments g :
  Parse W f arguments = ([], Ret g) →
  main W f arguments = main_after_Parse W g.
Proof.
  intros H. unfold main. rewrite H. cbn [mbind M_bind].
  by destruct (main_after_Parse W g).
Qed.

(** X14. If the Kubernetes client cannot be created, [main] ends in
    [log.Fatalf] after logging, metrics and [k8s.New] only: the DNS
    configuration is not even validated, and no adapter is built. *)
Theorem k8s_failure_precedes_updater W g e :
  k8s_New_err W (kubeconfig g) (resyncPeriod g) = Some e →
  main_after_Parse W g =
    (calls_before_updater g,
     Stop (LogFatal (Fatalf_line "Unable to create k8s client: %v"
                       [argError (extErr e)]))).
Proof. intros H. by rewrite main_after_Parse_cases, H. Qed.

Lemma k8s_failure_precedes_updater_witness :
  k8s_New_err no_cluster_world (kubeconfig aws_no_zone)
      (resyncPeriod aws_no_zone) = Some "no cluster"
  ∧ main_after_Parse no_cluster_world aws_no_zone =
      (calls_before_updater aws_no_zone,
       Stop (LogFatal (Fatalf_line "Unable to create k8s client: %v"
                         [argError (extErr "no cluster")]))).
Proof.
  assert (H : k8s_New_err no_cluster_world (kubeconfig aws_no_zone)
                (resyncPeriod aws_no_zone) = Some "no cluster")
    by reflexivity.
  split; [exact H|].
  exact (k8s_failure_precedes_updater no_cluster_world aws_no_zone
           "no cluster" H).
Defined.

(** X15. With a client and an updater, [main] goes on in this order: the
    calls of [createFrontendUpdater], then [controller.New] on that client
    and that one updater, the health metrics, the health port, the signal
    handler and [controller.Start], in that order and once each; it then
    waits forever, or ends in [log.Fatal] if [Start] returned an error. *)
Theorem main_with_updater W g tc u :
  k8s_New_err W (kubeconfig g) (resyncPeriod g) = None →
  createFrontendUpdater W g = (tc, Ret (Ok u)) →
  main_after_Parse W g =
    ((calls_before_updater g ++ tc ++ calls_after_updater g u)%list,
     match controller_Start_err W with
     | Some e =>
         Stop (LogFatal (Fatal_line
           [argString "Error while starting controller: ";
            argError (extErr e)]))
     | None => Blocked
     end).
Proof. intros Hk Hu. by rewrite main_after_Parse_cases, Hk, Hu. Qed.

Lemma main_with_updater_witness :
  k8s_New_err calm_world (kubeconfig aws_elb) (resyncPeriod aws_elb) = None
  ∧ createFrontendUpdater calm_world aws_elb =
      ([call_NewAWSAdapter aws_elb_config;
        call_dns_New "Z1EXAMPLE" (AWSAdapter aws_elb_config) 5],
       Ret (Ok (dns_Updater "Z1EXAMPLE" (AWSAdapter aws_elb_config) 5)))
  ∧ main_after_Parse calm_world aws_elb =
      ((calls_before_updater aws_elb
        ++ [call_NewAWSAdapter aws_elb_config;
            call_dns_New "Z1EXAMPLE" (AWSAdapter aws_elb_config) 5]
        ++ calls_after_updater aws_elb
             (dns_Updater "Z1EXAMPLE" (AWSAdapter aws_elb_config) 5))%list,
       match controller_Start_err calm_world with
       | Some e =>
           Stop (LogFatal (Fatal_line
             [argString "Error while starting controller: ";
              argError (extErr e)]))
       | None => Blocked
       end).
Proof.
  assert (H1 : k8s_New_err calm_world (kubeconfig aws_elb)
                 (resyncPeriod aws_elb) = None) by reflexivity.
  assert (H2 : createFrontendUpdater calm_world aws_elb =
      ([call_NewAWSAdapter aws_elb_config;
        call_dns_New "Z1EXAMPLE" (AWSAdapter aws_elb_config) 5],
       Ret (Ok (dns_Updater "Z1EXAMPLE" (AWSAdapter aws_elb_config) 5))))
    by (vm_compute; reflexivity).
  split; [exact H1|]. split; [exact H2|].
  exact (main_with_updater calm_world aws_elb _ _ H1 H2).
Defined.

(** X16. [main] never returns: whatever the flag set and the command
    line, the run ends the process or waits forever in [select]. *)
Theorem main_never_returns W f arguments :
  outcome (main W f arguments) ≠ Ret tt.
Proof.
  destruct (Parse_ends W f arguments) as [[g H]|[e H]].
  - rewrite (main_Parse_Ret W f arguments g H), main_after_Parse_cases.
    destruct (k8s_New_err W _ _); [done|].
    destruct (createFrontendUpdater_ends W g) as [[r Hr]|[line Hl]];
      destruct (createFrontendUpdater W g) as [tc o];
      cbn [outcome snd] in *; subst o; [destruct r as [u|err]|];
      cbn [outcome snd]; try done.
    by destruct (controller_Start_err W).
  - by rewrite (main_Parse_Stop W f arguments e H).
Qed.

(** X17. The program as [init] sets it up never starts the controller:
    for every command line it ends the process, either in [flag.Parse] or in
    [log.Fatalf] (client or updater), [controller.Start] is not among its
    calls and no adapter was built. *)
Theorem program_never_starts_controller W arguments m :
  program W arguments = Some m →
  (∃ e, outcome m = Stop e)
  ∧ (∀ c, call_controller_Start c ∉ trace m)
  ∧ adapters_constructed W (trace m) = [].
Proof.
  unfold program. rewrite init_CommandLine. cbn [mbind option_bind].
  intros Hm. injection Hm as <-.
  destruct (Parse_ends W CommandLine arguments) as [[g H]|[e H]].
  - pose proof (Parse_dnsProvider W CommandLine arguments [] g eq_refl H)
      as Hd.
    rewrite vars_CommandLine in Hd. cbn [dnsProvider] in Hd.
    rewrite (main_Parse_Ret W _ _ g H), main_after_Parse_cases.
    rewrite createFrontendUpdater_default by (rewrite Hd; discriminate).
    destruct (k8s_New_err W _ _); cbn [outcome trace fst snd];
      rewrite ?app_nil_r; unfold calls_before_updater;
      (split; [by eexists|]); (split; [|done]); intros c Hin;
      repeat (apply elem_of_cons in Hin as [Hin|Hin]; [discriminate|]);
      by apply elem_of_nil in Hin.
  - rewrite (main_Parse_Stop W _ _ e H). cbn [outcome trace fst snd].
    split; [by eexists|]. split; [|done]. intros c Hin.
    by apply elem_of_nil in Hin.
Qed.

Lemma program_never_starts_controller_witness :
  program calm_world arguments_aws_elb
    = Some (main calm_world CommandLine arguments_aws_elb)
  ∧ (∃ e, outcome (main calm_world CommandLine arguments_aws_elb) = Stop e)
  ∧ (∀ c, call_controller_Start c
          ∉ trace (main calm_world CommandLine arguments_aws_elb))
  ∧ adapters_constructed calm_world
      (trace (main calm_world CommandLine arguments_aws_elb)) = [].
Proof.
  assert (H : program calm_world arguments_aws_elb
              = Some (main calm_world CommandLine arguments_aws_elb))
    by (vm_compute; reflexivity).
  split; [exact H|].
  exact (program_never_starts_controller calm_world arguments_aws_elb _ H).
Defined.
